(** * flex-db: the gRPC tenant handler and the relationship service

    A shallow embedding of
      - [internal/grpc/tenant_handler.go]   (package grpc), and
      - [internal/service/relationship_service.go] (package service),
    followed by the properties proved about them.

    Conventions of the embedding.
      - A Go [string] is a byte sequence: Stdlib's [string] (a list of
        8-bit [ascii]).  [len], slicing and [==] are the byte-wise ones.
      - Go's [int] and [int32] are [Z]; the one narrowing conversion of the
        code, [int32(x)], has its wrap-around written out.
      - A value of interface type [error] is [option error], [None] being
        [nil].  A pointer [*T] is [option] of a location (or of the struct
        it points to where the code only reads through it), [None] being
        the nil pointer.
      - A run-time panic (slice out of range, nil dereference) is the
        [Panicked] outcome. *)

From stdpp Require Import gmap strings list.
From Stdlib Require Import Ascii ZArith Lia.

Open Scope Z_scope.

(** ** Outcomes: a Go call either returns or panics *)

Inductive outcome (A : Type) : Type :=
| Done (a : A)
| Panicked.
Arguments Done {A} a.
Arguments Panicked {A}.

Definition obind {A B : Type} (m : outcome A) (k : A -> outcome B) : outcome B :=
  match m with
  | Done a => k a
  | Panicked => Panicked
  end.

(** A Go function that reads and writes a world [W] (the objects it can
    reach and the collaborators it calls) and may panic: it leaves a
    world behind in either case (a panic undoes nothing), and a value
    when it returns. *)
Definition M (W A : Type) : Type := W -> outcome A * W.

Definition ret {W A : Type} (a : A) : M W A := fun w => (Done a, w).

Definition bind {W A B : Type} (m : M W A) (k : A -> M W B) : M W B :=
  fun w =>
    match m w with
    | (Done a, w') => k a w'
    | (Panicked, w') => (Panicked, w')
    end.

Definition lift {W A : Type} (o : outcome A) : M W A := fun w => (o, w).

Notation "x <- m ;; k" := (bind m (fun x => k))
  (at level 100, m at next level, right associativity).

(** ** Go strings *)

Module GoString.

(** [len(s)] *)
Definition len (s : string) : Z := Z.of_nat (String.length s).

(** [s[lo:hi]]: panics unless [0 <= lo <= hi <= len(s)]. *)
Definition slice (s : string) (lo hi : Z) : outcome string :=
  if (0 <=? lo) && (lo <=? hi) && (hi <=? len s)
  then Done (String.substring (Z.to_nat lo) (Z.to_nat (hi - lo)) s)
  else Panicked.

End GoString.

(** ** Package errors: the error values the two files build and inspect *)

Module Errors.

(** The dynamic shape of a non-nil [error]:
      - [ErrNotFound] is the package-level sentinel
        [repository.ErrNotFound] (one object, compared by identity);
      - [errorString s] is what [errors.New(s)] and [fmt.Errorf(s)] with
        no [%w] verb allocate;
      - [wrapError msg err] is what [fmt.Errorf] with a [%w] verb
        allocates: its [Error()] is [msg], its [Unwrap()] is [err]. *)
Inductive error : Type :=
| ErrNotFound
| errorString (s : string)
| wrapError (msg : string) (err : error).

(** [fmt.Errorf(format)] for a format with no verbs. *)
Definition Errorf (format : string) : error := errorString format.

(** [errors.Is(err, repository.ErrNotFound)]: walks the [Unwrap] chain
    of [err] looking for the sentinel itself; [nil] has no chain. *)
Fixpoint IsNotFound_chain (err : error) : bool :=
  match err with
  | ErrNotFound => true
  | errorString _ => false
  | wrapError _ inner => IsNotFound_chain inner
  end.

Definition Is_ErrNotFound (err : option error) : bool :=
  match err with
  | None => false
  | Some e => IsNotFound_chain e
  end.

Section Message.
(** The text of the sentinel is declared in package repository, which
    the handler only imports; it is a parameter here. *)
Variable ErrNotFound_text : string.

(** [err.Error()] on a non-nil error. *)
Definition Error (err : error) : string :=
  match err with
  | ErrNotFound => ErrNotFound_text
  | errorString s => s
  | wrapError msg _ => msg
  end.

(** [err.Error()] on an interface value: a nil receiver panics. *)
Definition Error_call (err : option error) : outcome string :=
  match err with
  | None => Panicked
  | Some e => Done (Error e)
  end.
End Message.

End Errors.

(** ** The packages the handler imports *)

(** [time.Time] as far as the handler uses it: an instant, counted from
    January 1 of year 1 (the zero [Time]), in seconds and nanoseconds. *)
Module time.
Record Time : Type := { sec : Z; nsec : Z }.
Definition zero : Time := {| sec := 0; nsec := 0 |}.
(** [t.Unix()] and [t.Nanosecond()] *)
Definition Unix (t : Time) : Z := sec t - 62135596800.
Definition Nanosecond (t : Time) : Z := nsec t.
End time.

(** [int32(x)] for an [int] x: the low 32 bits, read as signed. *)
Definition int32 (x : Z) : Z := (x + 2 ^ 31) mod 2 ^ 32 - 2 ^ 31.

Module timestamppb.
Record Timestamp : Type := { Seconds : Z; Nanos : Z }.
(** [timestamppb.New(t)] *)
Definition New (t : time.Time) : Timestamp :=
  {| Seconds := time.Unix t; Nanos := int32 (time.Nanosecond t) |}.
End timestamppb.

Module codes.
(** [google.golang.org/grpc/codes.Code] *)
Inductive Code : Type :=
| OK | Canceled | Unknown | InvalidArgument | DeadlineExceeded | NotFound
| AlreadyExists | PermissionDenied | ResourceExhausted | FailedPrecondition
| Aborted | OutOfRange | Unimplemented | Internal | Unavailable | DataLoss
| Unauthenticated.
End codes.

Module status.
(** The error that [status.Error(c, msg)] returns for a code other than
    [OK]: it carries the code and the message sent to the client. *)
Record Status : Type := { Code : codes.Code; Message : string }.
Definition Error (c : codes.Code) (msg : string) : Status :=
  {| Code := c; Message := msg |}.
End status.

(** Package repository, as the two files use it. *)
Module repository.

(** The fields are those [tenantToProto] reads. *)
Record Tenant : Type := {
  Tenant_ID : string;
  Tenant_Slug : string;
  Tenant_Name : string;
  Tenant_Status : string;
  Tenant_CreatedAt : time.Time;
  Tenant_UpdatedAt : time.Time
}.

(** The fields are those [ListTenants] reads. *)
Record ListResult : Type := {
  NextPageToken : string;
  TotalCount : Z
}.

(** The fields are those [RelationshipService.List] sets. *)
Record ListOptions : Type := {
  PageSize : Z;
  PageToken : string
}.

(** Modelled from the spec: the declaration of [repository.Relationship]
    is not among the sources.  [RelationshipService.Create] sets
    [TenantID], [SourceNodeID], [TargetNodeID], [RelationshipType] and
    [Data]; the data model of the spec adds the identifier and the two
    timestamps ("id, tenant_id, source_node_id, target_node_id,
    relationship_type, data, timestamps"). *)
Record Relationship : Type := {
  ID : string;
  TenantID : string;
  SourceNodeID : string;
  TargetNodeID : string;
  RelationshipType : string;
  Data : string;
  CreatedAt : time.Time;
  UpdatedAt : time.Time
}.

(** [rel.RelationshipType = v] and [rel.Data = v] on the struct value. *)
Definition set_RelationshipType (v : string) (r : Relationship) : Relationship :=
  {| ID := ID r; TenantID := TenantID r; SourceNodeID := SourceNodeID r;
     TargetNodeID := TargetNodeID r; RelationshipType := v; Data := Data r;
     CreatedAt := CreatedAt r; UpdatedAt := UpdatedAt r |}.

Definition set_Data (v : string) (r : Relationship) : Relationship :=
  {| ID := ID r; TenantID := TenantID r; SourceNodeID := SourceNodeID r;
     TargetNodeID := TargetNodeID r;
     RelationshipType := RelationshipType r; Data := v;
     CreatedAt := CreatedAt r; UpdatedAt := UpdatedAt r |}.

(** A [*Relationship] is a location of the heap of [Relationship] objects
    (or nil): the service writes through the pointer it got from the
    repository, so the object is shared between the two. *)
Definition loc : Type := positive.

(** The interface [repository.RelationshipRepository]: the five methods
    the service calls.  An implementation reads and writes its own state
    [S] (the tenant database) and the heap of [Relationship] objects. *)
Record RelationshipRepository (S : Type) : Type := {
  repo_Create : option loc ->
      M (S * gmap loc Relationship) (option loc * option Errors.error);
  repo_GetByID : string -> string ->
      M (S * gmap loc Relationship) (option loc * option Errors.error);
  repo_Update : option loc ->
      M (S * gmap loc Relationship) (option loc * option Errors.error);
  repo_Delete : string -> string ->
      M (S * gmap loc Relationship) (option Errors.error);
  repo_List : string -> string -> string -> string -> ListOptions ->
      M (S * gmap loc Relationship)
        (list (option loc) * option ListResult * option Errors.error)
}.
Arguments repo_Create {S}.
Arguments repo_GetByID {S}.
Arguments repo_Update {S}.
Arguments repo_Delete {S}.
Arguments repo_List {S}.

End repository.

(** The protobuf messages of the tenant service ([api/proto]). *)
Module pb.

Record Tenant : Type := {
  Id : string;
  Slug : string;
  Name : string;
  Status : string;
  CreatedAt : timestamppb.Timestamp;
  UpdatedAt : timestamppb.Timestamp
}.

Record PaginationRequest : Type := {
  PageSize : Z;            (* int32 *)
  PageToken : string
}.

Record PaginationResponse : Type := {
  NextPageToken : string;
  TotalCount : Z           (* int32 *)
}.

Record CreateTenantRequest : Type := {
  CreateTenantRequest_Slug : string;
  CreateTenantRequest_Name : string
}.
Record CreateTenantResponse : Type := {
  CreateTenantResponse_Tenant : Tenant
}.

Record GetTenantRequest : Type := { GetTenantRequest_Id : string }.
Record GetTenantResponse : Type := { GetTenantResponse_Tenant : Tenant }.

Record UpdateTenantRequest : Type := {
  UpdateTenantRequest_Id : string;
  UpdateTenantRequest_Slug : string;
  UpdateTenantRequest_Name : string;
  UpdateTenantRequest_Status : string
}.
Record UpdateTenantResponse : Type := { UpdateTenantResponse_Tenant : Tenant }.

Record DeleteTenantRequest : Type := { DeleteTenantRequest_Id : string }.
Record DeleteTenantResponse : Type := { }.

(** [Pagination] is a pointer field: [None] is the nil pointer. *)
Record ListTenantsRequest : Type := {
  ListTenantsRequest_Pagination : option PaginationRequest
}.
Record ListTenantsResponse : Type := {
  ListTenantsResponse_Tenants : list Tenant;
  ListTenantsResponse_Pagination : PaginationResponse
}.

End pb.

(** ** internal/service/relationship_service.go *)

Module service.
Import Errors repository.

(** [*service.TenantService], which the gRPC handler calls, is declared
    in a file of package service that is not among the sources: its five
    methods are parameters.  Each reads and writes the state [S] behind
    the service (the control database) and returns Go's result tuple. *)
Record TenantService (S : Type) : Type := {
  svc_Create : string -> string -> M S (option Tenant * option error);
  svc_GetByID : string -> M S (option Tenant * option error);
  svc_Update : string -> string -> string -> string ->
               M S (option Tenant * option error);
  svc_Delete : string -> M S (option error);
  svc_List : Z -> string ->
             M S (list (option Tenant) * option ListResult * option error)
}.
Arguments svc_Create {S}.
Arguments svc_GetByID {S}.
Arguments svc_Update {S}.
Arguments svc_Delete {S}.
Arguments svc_List {S}.

(** The repository calls a service run has issued, in order. *)
Inductive repoCall : Type :=
| Call_Create (rel : option loc)
| Call_GetByID (tenantID id : string)
| Call_Update (rel : option loc)
| Call_Delete (tenantID id : string)
| Call_List (tenantID sourceNodeID targetNodeID relType : string)
            (opts : ListOptions).

(** What a run of the service can reach: the state behind the repository,
    the [Relationship] objects on the heap, and (as a ghost field) the log
    of the repository calls issued so far. *)
Record world (S : Type) : Type := {
  store : S;
  objs : gmap loc Relationship;
  calls : list repoCall
}.
Arguments store {S}.
Arguments objs {S}.
Arguments calls {S}.

Section RelationshipService.
Context {S : Type}.

(** The field [repo] of the receiver [s]. *)
Variable repo : RelationshipRepository S.

(** A call [s.repo.m(...)]: the method runs on the store and the heap,
    and the call is logged. *)
Definition invoke {A : Type} (c : repoCall)
    (m : M (S * gmap loc Relationship) A) : M (world S) A :=
  fun w =>
    match m (store w, objs w) with
    | (a, (st, h)) =>
        (a, {| store := st; objs := h; calls := calls w ++ [c] |})
    end.

(** [&repository.Relationship{...}]: a fresh object on the heap. *)
Definition new (r : Relationship) : M (world S) (option loc) :=
  fun w =>
    let l := fresh (dom (objs w)) in
    (Done (Some l), {| store := store w; objs := <[l := r]> (objs w);
                       calls := calls w |}).

(** [rel.F = v], as the update [upd] of the object [rel] points to; a nil
    [rel] panics (and so does, in this model, a location with no object,
    which no Go pointer is). *)
Definition assign (rel : option loc) (upd : Relationship -> Relationship)
    : M (world S) unit :=
  fun w =>
    match rel with
    | None => (Panicked, w)
    | Some l =>
        match objs w !! l with
        | None => (Panicked, w)
        | Some r =>
            (Done tt, {| store := store w; objs := <[l := upd r]> (objs w);
                         calls := calls w |})
        end
    end.

(** [Create] *)
Definition Create (tenantID sourceNodeID targetNodeID relType data : string)
    : M (world S) (option loc * option error) :=
  if String.eqb tenantID "" then
    ret (None, Some (Errorf "tenant_id is required"))
  else if String.eqb sourceNodeID "" then
    ret (None, Some (Errorf "source_node_id is required"))
  else if String.eqb targetNodeID "" then
    ret (None, Some (Errorf "target_node_id is required"))
  else if String.eqb relType "" then
    ret (None, Some (Errorf "relationship_type is required"))
  else
    rel <- new {| ID := ""; TenantID := tenantID;
                  SourceNodeID := sourceNodeID;
                  TargetNodeID := targetNodeID;
                  RelationshipType := relType; Data := data;
                  CreatedAt := time.zero; UpdatedAt := time.zero |} ;;
    invoke (Call_Create rel) (repo_Create repo rel).

(** [GetByID] *)
Definition GetByID (tenantID id : string)
    : M (world S) (option loc * option error) :=
  if String.eqb id "" then
    ret (None, Some (Errorf "id is required"))
  else if String.eqb tenantID "" then
    ret (None, Some (Errorf "tenant_id is required"))
  else
    invoke (Call_GetByID tenantID id) (repo_GetByID repo tenantID id).

(** [Update] *)
Definition Update (tenantID id relType data : string)
    : M (world S) (option loc * option error) :=
  if String.eqb id "" then
    ret (None, Some (Errorf "id is required"))
  else if String.eqb tenantID "" then
    ret (None, Some (Errorf "tenant_id is required"))
  else
    r <- invoke (Call_GetByID tenantID id) (repo_GetByID repo tenantID id) ;;
    let rel := fst r in
    let err := snd r in
    match err with
    | Some _ => ret (None, err)
    | None =>
        _ <- (if negb (String.eqb relType "")
              then assign rel (set_RelationshipType relType)
              else ret tt) ;;
        _ <- (if negb (String.eqb data "")
              then assign rel (set_Data data)
              else ret tt) ;;
        invoke (Call_Update rel) (repo_Update repo rel)
    end.

(** [Delete] *)
Definition Delete (tenantID id : string) : M (world S) (option error) :=
  if String.eqb id "" then
    ret (Some (Errorf "id is required"))
  else if String.eqb tenantID "" then
    ret (Some (Errorf "tenant_id is required"))
  else
    invoke (Call_Delete tenantID id) (repo_Delete repo tenantID id).

(** [List]: [int(pageSize)] widens an [int32] and keeps its value. *)
Definition List (tenantID sourceNodeID targetNodeID relType : string)
    (pageSize : Z) (pageToken : string)
    : M (world S) (list (option loc) * option ListResult * option error) :=
  if String.eqb tenantID "" then
    ret ([], None, Some (Errorf "tenant_id is required"))
  else
    let opts := {| PageSize := pageSize; PageToken := pageToken |} in
    invoke (Call_List tenantID sourceNodeID targetNodeID relType opts)
           (repo_List repo tenantID sourceNodeID targetNodeID relType opts).

End RelationshipService.

End service.

(** ** internal/grpc/tenant_handler.go: the string helpers *)

Module Grpc.
Import GoString Errors.

(** The body of the loop of [containsAt], run over the successive values
    of [i].  The loop [for i := 0; i <= N; i++] has a bound that the body
    does not change, so it visits [0, 1, ..., N] in order (no value when
    [N < 0]) and leaves at the first [return]. *)
Fixpoint containsAt_loop (s substr : string) (idx : list Z) : outcome bool :=
  match idx with
  | [] => Done false
  | i :: rest =>
      match slice s i (i + len substr) with
      | Panicked => Panicked
      | Done w =>
          if String.eqb w substr then Done true
          else containsAt_loop s substr rest
      end
  end.

Definition containsAt (s substr : string) : outcome bool :=
  containsAt_loop s substr (seqZ 0 (len s - len substr + 1)).

(** [len(s) >= len(substr) && (s == substr || len(s) > 0 && containsAt(s, substr))]
    with the short-circuit evaluation of [&&] and [||]. *)
Definition contains (s substr : string) : outcome bool :=
  if len s >=? len substr then
    if String.eqb s substr then Done true
    else if len s >? 0 then containsAt s substr
    else Done false
  else Done false.

(** [containsAny(s, substrs...)] *)
Fixpoint containsAny (s : string) (substrs : list string) : outcome bool :=
  match substrs with
  | [] => Done false
  | substr :: rest =>
      match contains s substr with
      | Panicked => Panicked
      | Done true => Done true
      | Done false => containsAny s rest
      end
  end.

(** ** internal/grpc/tenant_handler.go: the error mapping *)

Section MapError.
Variable ErrNotFound_text : string.

(** [mapError]: the three [return]s in the order of the source.  The
    message argument [err.Error()] is evaluated before [status.Error] is
    called, so a nil [err] reaching the last [return] panics. *)
Definition mapError (err : option error) : outcome status.Status :=
  if Is_ErrNotFound err then
    obind (Error_call ErrNotFound_text err) (fun msg =>
    Done (status.Error codes.NotFound msg))
  else
    obind (match err with
           | None => Done false
           | Some e => containsAny (Error ErrNotFound_text e) ["required"; "invalid"]
           end) (fun validation =>
    if validation : bool then
      obind (Error_call ErrNotFound_text err) (fun msg =>
      Done (status.Error codes.InvalidArgument msg))
    else
      obind (Error_call ErrNotFound_text err) (fun msg =>
      Done (status.Error codes.Internal msg))).

End MapError.

(** ** internal/grpc/tenant_handler.go: the handlers *)

(** The service calls a handler run has issued, in order. *)
Inductive svcCall : Type :=
| Svc_Create (slug name : string)
| Svc_GetByID (id : string)
| Svc_Update (id slug name status : string)
| Svc_Delete (id : string)
| Svc_List (pageSize : Z) (pageToken : string).

(** What a run of a handler can reach: the state behind the service and
    (as a ghost field) the log of the service calls issued so far. *)
Record world (S : Type) : Type := {
  svc_state : S;
  svc_calls : list svcCall
}.
Arguments svc_state {S}.
Arguments svc_calls {S}.

(** [tenantToProto]: reading a field through a nil [t] panics. *)
Definition tenantToProto (t : option repository.Tenant) : outcome pb.Tenant :=
  match t with
  | None => Panicked
  | Some t =>
      Done {| pb.Id := repository.Tenant_ID t;
              pb.Slug := repository.Tenant_Slug t;
              pb.Name := repository.Tenant_Name t;
              pb.Status := repository.Tenant_Status t;
              pb.CreatedAt := timestamppb.New (repository.Tenant_CreatedAt t);
              pb.UpdatedAt := timestamppb.New (repository.Tenant_UpdatedAt t) |}
  end.

(** The loop [for i, t := range tenants { pbTenants[i] = tenantToProto(t) }]. *)
Fixpoint tenantsToProto (tenants : list (option repository.Tenant))
    : outcome (list pb.Tenant) :=
  match tenants with
  | [] => Done []
  | t :: rest =>
      obind (tenantToProto t) (fun p =>
      obind (tenantsToProto rest) (fun ps => Done (p :: ps)))
  end.

Section TenantHandler.
Variable ErrNotFound_text : string.
Context {S : Type}.

(** The field [svc] of the receiver [h]. *)
Variable svc : service.TenantService S.

(** A call [h.svc.m(...)]: the method runs on the state behind the
    service, and the call is logged. *)
Definition invoke {A : Type} (c : svcCall) (m : M S A) : M (world S) A :=
  fun w =>
    match m (svc_state w) with
    | (a, st) => (a, {| svc_state := st; svc_calls := svc_calls w ++ [c] |})
    end.

(** A handler returns [(response, error)]; the request pointer [req] is
    never nil when gRPC calls a handler. *)

(** [CreateTenant] *)
Definition CreateTenant (req : pb.CreateTenantRequest)
    : M (world S) (option pb.CreateTenantResponse * option status.Status) :=
  r <- invoke (Svc_Create (pb.CreateTenantRequest_Slug req)
                          (pb.CreateTenantRequest_Name req))
              (service.svc_Create svc (pb.CreateTenantRequest_Slug req)
                                      (pb.CreateTenantRequest_Name req)) ;;
  let tenant := fst r in
  let err := snd r in
  match err with
  | Some _ =>
      e <- lift (mapError ErrNotFound_text err) ;;
      ret (None, Some e)
  | None =>
      t <- lift (tenantToProto tenant) ;;
      ret (Some {| pb.CreateTenantResponse_Tenant := t |}, None)
  end.

(** [GetTenant] *)
Definition GetTenant (req : pb.GetTenantRequest)
    : M (world S) (option pb.GetTenantResponse * option status.Status) :=
  r <- invoke (Svc_GetByID (pb.GetTenantRequest_Id req))
              (service.svc_GetByID svc (pb.GetTenantRequest_Id req)) ;;
  let tenant := fst r in
  let err := snd r in
  match err with
  | Some _ =>
      e <- lift (mapError ErrNotFound_text err) ;;
      ret (None, Some e)
  | None =>
      t <- lift (tenantToProto tenant) ;;
      ret (Some {| pb.GetTenantResponse_Tenant := t |}, None)
  end.

(** [UpdateTenant] *)
Definition UpdateTenant (req : pb.UpdateTenantRequest)
    : M (world S) (option pb.UpdateTenantResponse * option status.Status) :=
  r <- invoke (Svc_Update (pb.UpdateTenantRequest_Id req)
                          (pb.UpdateTenantRequest_Slug req)
                          (pb.UpdateTenantRequest_Name req)
                          (pb.UpdateTenantRequest_Status req))
              (service.svc_Update svc (pb.UpdateTenantRequest_Id req)
                                      (pb.UpdateTenantRequest_Slug req)
                                      (pb.UpdateTenantRequest_Name req)
                                      (pb.UpdateTenantRequest_Status req)) ;;
  let tenant := fst r in
  let err := snd r in
  match err with
  | Some _ =>
      e <- lift (mapError ErrNotFound_text err) ;;
      ret (None, Some e)
  | None =>
      t <- lift (tenantToProto tenant) ;;
      ret (Some {| pb.UpdateTenantResponse_Tenant := t |}, None)
  end.

(** [DeleteTenant] *)
Definition DeleteTenant (req : pb.DeleteTenantRequest)
    : M (world S) (option pb.DeleteTenantResponse * option status.Status) :=
  err <- invoke (Svc_Delete (pb.DeleteTenantRequest_Id req))
                (service.svc_Delete svc (pb.DeleteTenantRequest_Id req)) ;;
  match err with
  | Some _ =>
      e <- lift (mapError ErrNotFound_text err) ;;
      ret (None, Some e)
  | None => ret (Some pb.Build_DeleteTenantResponse, None)
  end.

(** [ListTenants] *)
Definition ListTenants (req : pb.ListTenantsRequest)
    : M (world S) (option pb.ListTenantsResponse * option status.Status) :=
  let pageSize := 10 in
  let pageToken := "" in
  let locals :=
    match pb.ListTenantsRequest_Pagination req with
    | Some pagination =>
        (if pb.PageSize pagination >? 0 then pb.PageSize pagination
         else pageSize,
         pb.PageToken pagination)
    | None => (pageSize, pageToken)
    end in
  let pageSize := fst locals in
  let pageToken := snd locals in
  r <- invoke (Svc_List pageSize pageToken)
              (service.svc_List svc pageSize pageToken) ;;
  let tenants := fst (fst r) in
  let result := snd (fst r) in
  let err := snd r in
  match err with
  | Some _ =>
      e <- lift (mapError ErrNotFound_text err) ;;
      ret (None, Some e)
  | None =>
      pbTenants <- lift (tenantsToProto tenants) ;;
      match result with
      | None => lift Panicked
      | Some result =>
          ret (Some {| pb.ListTenantsResponse_Tenants := pbTenants;
                       pb.ListTenantsResponse_Pagination :=
                         {| pb.NextPageToken := repository.NextPageToken result;
                            pb.TotalCount := int32 (repository.TotalCount result) |} |},
               None)
      end
  end.

End TenantHandler.

End Grpc.

(** * Properties *)

Import GoString Errors.

(** ** Substrings *)

(** [substr] occurs in [s] as a contiguous run of bytes. *)
Definition occursIn (substr s : string) : Prop :=
  exists pre post : string, s = pre +:+ substr +:+ post.

(** The library predicate [strings.Contains(s, substr)], "substr is
    within s", decided the plain way: [substr] is a prefix of [s] or of
    one of its suffixes. *)
Fixpoint strings_Contains (s substr : string) : bool :=
  String.prefix substr s ||
  match s with
  | EmptyString => false
  | String _ s' => strings_Contains s' substr
  end.

(** ** Test doubles

    Stand-ins for the two collaborators whose code is outside these files,
    used to run the handler and the service on concrete inputs. *)

(** A tenant service over the list of the slugs in use: [Create] fails on
    a slug already taken with the error text of a PostgreSQL unique
    violation and stores any other slug; nothing can be fetched; [List]
    returns an empty page. *)
Definition stubTenantService : service.TenantService (list string) :=
  {| service.svc_Create := fun slug name slugs =>
       if bool_decide (slug ∈ slugs) then
         (Done (None, Some (errorString
            "failed to create tenant: pq: duplicate key value violates unique constraint tenants_slug_key")),
          slugs)
       else
         (Done (Some {| repository.Tenant_ID := "t-" +:+ slug;
                        repository.Tenant_Slug := slug;
                        repository.Tenant_Name := name;
                        repository.Tenant_Status := "active";
                        repository.Tenant_CreatedAt := time.zero;
                        repository.Tenant_UpdatedAt := time.zero |}, None),
          slug :: slugs);
     service.svc_GetByID := fun id slugs =>
       (Done (None, Some ErrNotFound), slugs);
     service.svc_Update := fun id slug name status slugs =>
       (Done (None, Some ErrNotFound), slugs);
     service.svc_Delete := fun id slugs => (Done (Some ErrNotFound), slugs);
     service.svc_List := fun pageSize pageToken slugs =>
       (Done ([], Some {| repository.NextPageToken := "";
                          repository.TotalCount := 0 |}, None), slugs) |}.

(** A relationship repository whose state maps an identifier to the
    location of its object: [GetByID] finds the object or fails with a
    wrapped [ErrNotFound]; [Create] and [Update] hand their argument back;
    [Delete] forgets the identifier; [List] returns an empty page. *)
Definition stubRepo : repository.RelationshipRepository (gmap string repository.loc) :=
  {| repository.repo_Create := fun rel σ => (Done (rel, None), σ);
     repository.repo_GetByID := fun tenantID id σ =>
       match fst σ !! id with
       | Some l => (Done (Some l, None), σ)
       | None =>
           (Done (None, Some (wrapError "relationship not found" ErrNotFound)), σ)
       end;
     repository.repo_Update := fun rel σ => (Done (rel, None), σ);
     repository.repo_Delete := fun tenantID id σ =>
       (Done None, (delete id (fst σ), snd σ));
     repository.repo_List := fun tenantID sourceNodeID targetNodeID relType opts σ =>
       (Done ([], Some {| repository.NextPageToken := "";
                          repository.TotalCount := 0 |}, None), σ) |}.

(** The relationship the service tests fetch and update. *)
Definition sampleRelationship : repository.Relationship :=
  {| repository.ID := "r1"; repository.TenantID := "acme";
     repository.SourceNodeID := "n1"; repository.TargetNodeID := "n2";
     repository.RelationshipType := "depends_on";
     repository.Data := "{}";
     repository.CreatedAt := {| time.sec := 63900000000; time.nsec := 0 |};
     repository.UpdatedAt := {| time.sec := 63900000100; time.nsec := 0 |} |}.

(** A world holding that relationship at location 1, with no call issued. *)
Definition sampleWorld : service.world (gmap string repository.loc) :=
  {| service.store := {["r1" := 1%positive]};
     service.objs := {[1%positive := sampleRelationship]};
     service.calls := [] |}.

(** A relationship repository that breaks the usual contract of a Go
    result pair: [GetByID] answers with a nil pointer and a nil error.
    The other methods hand their argument back. *)
Definition nilRepo : repository.RelationshipRepository unit :=
  {| repository.repo_Create := fun rel σ => (Done (rel, None), σ);
     repository.repo_GetByID := fun tenantID id σ => (Done (None, None), σ);
     repository.repo_Update := fun rel σ => (Done (rel, None), σ);
     repository.repo_Delete := fun tenantID id σ => (Done None, σ);
     repository.repo_List := fun tenantID sourceNodeID targetNodeID relType opts σ =>
       (Done ([], None, None), σ) |}.

(** A tenant service with one tenant in its state: [GetByID] and [Update]
    find it under its identifier and fail with a wrapped [ErrNotFound]
    otherwise; [Delete] does the same and removes it; [Create] hands back
    a nil tenant with a nil error; [List] returns the tenant, when there
    is one, with a total count that does not fit 32 bits. *)
Definition oneTenantService : service.TenantService (option repository.Tenant) :=
  {| service.svc_Create := fun slug name σ => (Done (None, None), σ);
     service.svc_GetByID := fun id σ =>
       match σ with
       | Some t =>
           if String.eqb id (repository.Tenant_ID t) then (Done (Some t, None), σ)
           else (Done (None, Some (wrapError "tenant not found" ErrNotFound)), σ)
       | None => (Done (None, Some (wrapError "tenant not found" ErrNotFound)), σ)
       end;
     service.svc_Update := fun id slug name status σ =>
       match σ with
       | Some t =>
           if String.eqb id (repository.Tenant_ID t) then (Done (Some t, None), σ)
           else (Done (None, Some (wrapError "tenant not found" ErrNotFound)), σ)
       | None => (Done (None, Some (wrapError "tenant not found" ErrNotFound)), σ)
       end;
     service.svc_Delete := fun id σ =>
       match σ with
       | Some t =>
           if String.eqb id (repository.Tenant_ID t) then (Done None, None)
           else (Done (Some (wrapError "tenant not found" ErrNotFound)), σ)
       | None => (Done (Some (wrapError "tenant not found" ErrNotFound)), σ)
       end;
     service.svc_List := fun pageSize pageToken σ =>
       match σ with
       | Some t =>
           (Done ([Some t], Some {| repository.NextPageToken := "";
                                    repository.TotalCount := 4294967297 |}, None), σ)
       | None =>
           (Done ([], None, Some (errorString "connection refused")), σ)
       end |}.

(** The tenant the handler tests fetch. *)
Definition sampleTenant : repository.Tenant :=
  {| repository.Tenant_ID := "t1"; repository.Tenant_Slug := "acme";
     repository.Tenant_Name := "Acme"; repository.Tenant_Status := "active";
     repository.Tenant_CreatedAt := {| time.sec := 63900000000; time.nsec := 5 |};
     repository.Tenant_UpdatedAt := {| time.sec := 63900000100; time.nsec := 7 |} |}.

(** ** Auxiliary facts on strings *)

Section SubstringFacts.

Lemma append_nil_l (s : string) : "" +:+ s = s.
Proof. reflexivity. Qed.

Lemma append_cons (c : ascii) (s t : string) :
  String c s +:+ t = String c (s +:+ t).
Proof. reflexivity. Qed.

Lemma append_nil_r (s : string) : s +:+ "" = s.
Proof.
  induction s as [|c s IH]; [reflexivity|].
  rewrite append_cons, IH. reflexivity.
Qed.

Lemma length_append (s t : string) :
  String.length (s +:+ t) = (String.length s + String.length t)%nat.
Proof.
  induction s as [|c s IH]; [reflexivity|].
  rewrite append_cons. simpl. rewrite IH. reflexivity.
Qed.

Lemma substring_prefix_append (w post : string) :
  String.substring 0 (String.length w) (w +:+ post) = w.
Proof.
  induction w as [|c w IH].
  - rewrite append_nil_l. destruct post; reflexivity.
  - rewrite append_cons. simpl. rewrite IH. reflexivity.
Qed.

Lemma substring_skip_append (pre t : string) (m : nat) :
  String.substring (String.length pre) m (pre +:+ t) = String.substring 0 m t.
Proof.
  induction pre as [|c pre IH]; [reflexivity|].
  rewrite append_cons. simpl. exact IH.
Qed.

Lemma substring_0_is_prefix (w s : string) :
  String.substring 0 (String.length w) s = w -> exists post, s = w +:+ post.
Proof.
  revert s. induction w as [|c w IH]; intros s H.
  - exists s. reflexivity.
  - destruct s as [|d s]; simpl in H; [discriminate|].
    injection H as -> H. destruct (IH _ H) as [post ->].
    exists post. reflexivity.
Qed.

Lemma substring_occurs (n : nat) (w s : string) :
  String.substring n (String.length w) s = w -> occursIn w s.
Proof.
  revert s. induction n as [|n IH]; intros s H.
  - destruct (substring_0_is_prefix _ _ H) as [post ->].
    exists "", post. reflexivity.
  - destruct s as [|c s].
    + assert (w = "") as ->.
      { destruct w; simpl in H; [reflexivity | discriminate]. }
      exists "", "". reflexivity.
    + simpl in H. destruct (IH _ H) as (pre & post & ->).
      exists (String c pre), post. reflexivity.
Qed.

Lemma occurs_substring (pre w post : string) :
  String.substring (String.length pre) (String.length w) (pre +:+ w +:+ post) = w.
Proof. rewrite substring_skip_append. apply substring_prefix_append. Qed.

Lemma strings_Contains_occursIn (s substr : string) :
  strings_Contains s substr = true <-> occursIn substr s.
Proof.
  induction s as [|c s IH]; cbn [strings_Contains].
  - rewrite orb_false_r, String.prefix_correct. split.
    + apply (substring_occurs 0).
    + intros (pre & post & H).
      destruct pre; [|discriminate]. rewrite append_nil_l in H.
      rewrite H. apply substring_prefix_append.
  - rewrite orb_true_iff, IH, String.prefix_correct. split.
    + intros [H | (pre & post & ->)].
      * apply (substring_occurs 0 _ _ H).
      * exists (String c pre), post. reflexivity.
    + intros (pre & post & H). destruct pre as [|d pre].
      * left. rewrite append_nil_l in H. rewrite H.
        apply substring_prefix_append.
      * right. rewrite append_cons in H. injection H as _ ->.
        exists pre, post. reflexivity.
Qed.

End SubstringFacts.

(** ** The string helpers of the handler *)

Section ContainsFacts.
Import Grpc.

Lemma occursIn_len (substr s : string) : occursIn substr s -> len substr <= len s.
Proof.
  intros (pre & post & ->). unfold len. rewrite !length_append. lia.
Qed.

Lemma occursIn_refl (s : string) : occursIn s s.
Proof. exists "", "". rewrite append_nil_r. reflexivity. Qed.

(** Inside the bounds of the loop the slice expression does not panic. *)
Lemma slice_window (s substr : string) (i : Z) :
  0 <= i <= len s - len substr ->
  slice s i (i + len substr)
  = Done (String.substring (Z.to_nat i) (String.length substr) s).
Proof.
  intros Hi. unfold slice.
  replace ((0 <=? i) && (i <=? i + len substr) && (i + len substr <=? len s))
    with true.
  - f_equal. f_equal. unfold len. lia.
  - symmetry. rewrite !andb_true_iff, !Z.leb_le. unfold len in *. lia.
Qed.

Lemma containsAt_loop_existsb (s substr : string) (idx : list Z) :
  Forall (fun i => 0 <= i <= len s - len substr) idx ->
  containsAt_loop s substr idx
  = Done (existsb (fun i => String.eqb
                    (String.substring (Z.to_nat i) (String.length substr) s)
                    substr) idx).
Proof.
  induction 1 as [|i idx Hi _ IH]; [reflexivity|].
  cbn [containsAt_loop existsb]. rewrite (slice_window _ _ _ Hi).
  destruct (String.eqb _ substr); [reflexivity | exact IH].
Qed.

Lemma containsAt_strings_Contains (s substr : string) :
  len substr <= len s -> containsAt s substr = Done (strings_Contains s substr).
Proof.
  intros Hlen. unfold containsAt. rewrite containsAt_loop_existsb.
  2:{ apply Forall_seqZ. intros; lia. }
  f_equal. apply eq_true_iff_eq.
  rewrite existsb_exists, strings_Contains_occursIn. split.
  - intros (i & _ & Heq). apply String.eqb_eq in Heq.
    exact (substring_occurs _ _ _ Heq).
  - intros (pre & post & ->). exists (len pre). split.
    + apply list_elem_of_In, elem_of_seqZ.
      unfold len. rewrite !length_append. lia.
    + apply String.eqb_eq. unfold len. rewrite Nat2Z.id.
      apply occurs_substring.
Qed.

Lemma contains_strings_Contains (s substr : string) :
  contains s substr = Done (strings_Contains s substr).
Proof.
  unfold contains. destruct (Z.geb_spec (len s) (len substr)) as [Hge | Hlt].
  - destruct (String.eqb_spec s substr) as [-> | Hne].
    + f_equal. symmetry. apply strings_Contains_occursIn, occursIn_refl.
    + destruct (Z.gtb_spec (len s) 0) as [Hpos | Hzero].
      * apply containsAt_strings_Contains. lia.
      * exfalso. apply Hne.
        destruct s; [|unfold len in Hzero; simpl in Hzero; lia].
        destruct substr; [reflexivity|].
        unfold len in Hge; simpl in Hge; lia.
  - f_equal. symmetry. apply not_true_is_false. intros H.
    apply strings_Contains_occursIn, occursIn_len in H. lia.
Qed.

Lemma containsAny_singleton (s substr : string) :
  containsAny s [substr] = contains s substr.
Proof.
  cbn [containsAny]. destruct (contains s substr) as [[|]|]; reflexivity.
Qed.

End ContainsFacts.

(** C9.  For all strings [s] and [substr], the helper [contains] returns
    (it never panics), and it returns [true] exactly when [substr] occurs
    in [s] as a contiguous run of bytes; [containsAny] with that one
    substring returns the same.  The empty substring is found in every
    string, a non-empty one is not found in the empty string, and the
    result is that of the library predicate [strings.Contains]. *)
Theorem contains_is_substring_test (s substr : string) :
  (exists b : bool,
      Grpc.contains s substr = Done b /\
      Grpc.containsAny s [substr] = Done b /\
      (b = true <-> occursIn substr s)) /\
  Grpc.contains s "" = Done true /\
  (substr <> "" -> Grpc.contains "" substr = Done false) /\
  Grpc.contains s substr = Done (strings_Contains s substr).
Proof.
  split; [|split; [|split]].
  - exists (strings_Contains s substr).
    rewrite containsAny_singleton, contains_strings_Contains.
    split; [reflexivity|]. split; [reflexivity|].
    apply strings_Contains_occursIn.
  - rewrite contains_strings_Contains. f_equal.
    apply strings_Contains_occursIn. exists "", s. reflexivity.
  - intros Hne. rewrite contains_strings_Contains. f_equal.
    destruct substr; [congruence | reflexivity].
  - apply contains_strings_Contains.
Qed.

(** The non-empty substring [x] is not found in the empty string. *)
Lemma contains_is_substring_test_witness :
  "x" <> "" /\ Grpc.contains "" "x" = Done false.
Proof.
  split; [discriminate|].
  destruct (contains_is_substring_test "" "x") as (_ & _ & H & _).
  apply H. discriminate.
Defined.

(** ** The error mapping *)

Section MapErrorFacts.
Import Grpc.
Variable ErrNotFound_text : string.

Lemma containsAny_pair (s a b : string) :
  containsAny s [a; b] = Done (strings_Contains s a || strings_Contains s b).
Proof.
  cbn [containsAny]. rewrite !contains_strings_Contains.
  destruct (strings_Contains s a), (strings_Contains s b); reflexivity.
Qed.

(** On a non-nil error [mapError] returns, with the message of the error
    and one of three codes. *)
Lemma mapError_Some (err : error) :
  mapError ErrNotFound_text (Some err)
  = Done (status.Error
            (if IsNotFound_chain err then codes.NotFound
             else if strings_Contains (Error ErrNotFound_text err) "required"
                     || strings_Contains (Error ErrNotFound_text err) "invalid"
                  then codes.InvalidArgument
                  else codes.Internal)
            (Error ErrNotFound_text err)).
Proof.
  unfold mapError. cbn [Is_ErrNotFound Error_call obind].
  destruct (IsNotFound_chain err); [reflexivity|].
  rewrite containsAny_pair. cbn [obind].
  destruct (_ || _); reflexivity.
Qed.

End MapErrorFacts.

(** C6.  For every error [err] with [errors.Is(err, repository.ErrNotFound)],
    [mapError] returns the status of code [NotFound] whose message is
    [err.Error()] unchanged, whatever that message contains: the test for
    the sentinel comes before the test for "required" and "invalid". *)
Theorem mapError_NotFound_verbatim (ErrNotFound_text : string) (err : error) :
  Is_ErrNotFound (Some err) = true ->
  Grpc.mapError ErrNotFound_text (Some err)
  = Done (status.Error codes.NotFound (Error ErrNotFound_text err)).
Proof.
  intros H. unfold Grpc.mapError. rewrite H. reflexivity.
Qed.

(** A wrapped [ErrNotFound] whose message contains both validation words is
    still mapped to [NotFound], message unchanged. *)
Lemma mapError_NotFound_verbatim_witness :
  let err := wrapError "id is required: invalid relationship: not found" ErrNotFound in
  Grpc.containsAny (Error "not found" err) ["required"; "invalid"] = Done true /\
  Grpc.mapError "not found" (Some err)
  = Done {| status.Code := codes.NotFound;
            status.Message := "id is required: invalid relationship: not found" |}.
Proof.
  split; [vm_compute; reflexivity|].
  apply (mapError_NotFound_verbatim "not found"
           (wrapError "id is required: invalid relationship: not found" ErrNotFound)).
  reflexivity.
Defined.

(** C3, as the code has it.  For every error that [mapError] classifies
    as internal (it is not [ErrNotFound] and its message contains neither
    "required" nor "invalid"), the status returned has code [Internal] and
    carries the message of the error unchanged. *)
Theorem mapError_Internal_verbatim (ErrNotFound_text : string) (err : error) :
  Is_ErrNotFound (Some err) = false ->
  Grpc.containsAny (Error ErrNotFound_text err) ["required"; "invalid"] = Done false ->
  Grpc.mapError ErrNotFound_text (Some err)
  = Done (status.Error codes.Internal (Error ErrNotFound_text err)).
Proof.
  intros Hnf Hval. unfold Grpc.mapError. rewrite Hnf, Hval. reflexivity.
Qed.

(** A refused database connection maps to [Internal] with its text. *)
Lemma mapError_Internal_verbatim_witness :
  Grpc.mapError "not found"
    (Some (errorString "dial tcp 10.0.0.5:5432: connect: connection refused"))
  = Done {| status.Code := codes.Internal;
            status.Message := "dial tcp 10.0.0.5:5432: connect: connection refused" |}.
Proof.
  apply (mapError_Internal_verbatim "not found"
           (errorString "dial tcp 10.0.0.5:5432: connect: connection refused"));
    vm_compute; reflexivity.
Defined.

(** C3, as the specification has it, fails: the internal error of a
    refused database connection reaches the caller with its whole text,
    host and port included. *)
Lemma mapError_Internal_not_opaque :
  let err := errorString "dial tcp 10.0.0.5:5432: connect: connection refused" in
  Is_ErrNotFound (Some err) = false /\
  Grpc.containsAny (Error "not found" err) ["required"; "invalid"] = Done false /\
  exists st : status.Status,
    Grpc.mapError "not found" (Some err) = Done st /\
    status.Code st = codes.Internal /\
    status.Message st = Error "not found" err /\
    occursIn (Error "not found" err) (status.Message st).
Proof.
  cbv zeta. split; [reflexivity|]. split; [vm_compute; reflexivity|].
  eexists. split; [vm_compute; reflexivity|].
  split; [reflexivity|]. split; [reflexivity|].
  apply occursIn_refl.
Qed.

(** ** The handlers *)

Section HandlerFacts.
Import Grpc.
Variable ErrNotFound_text : string.
Context {S : Type}.
Variable svc : service.TenantService S.

(** Once the service has answered, the rest of a handler touches neither
    the state behind the service nor the log. *)
Lemma bind_invoke_world {A B : Type} (c : svcCall) (m : M S A)
    (k : A -> M (world S) B) (w : world S) :
  (forall a w', snd (k a w') = w') ->
  snd (bind (invoke c m) k w)
  = {| svc_state := snd (m (svc_state w)); svc_calls := svc_calls w ++ [c] |}.
Proof.
  intros Hk. unfold bind, invoke.
  destruct (m (svc_state w)) as [[a|] st]; cbn [snd]; [apply Hk | reflexivity].
Qed.

Lemma bind_lift_world {A B : Type} (o : outcome A) (k : A -> M (world S) B)
    (w : world S) :
  (forall a, snd (k a w) = w) -> snd (bind (lift o) k w) = w.
Proof.
  intros Hk. unfold bind, lift. destruct o; [apply Hk | reflexivity].
Qed.

(** [ListTenants] calls the service once, with the page size and the page
    token it has in its two locals. *)
Lemma ListTenants_world (req : pb.ListTenantsRequest) (w : world S) :
  let locals :=
    match pb.ListTenantsRequest_Pagination req with
    | Some pagination =>
        (if pb.PageSize pagination >? 0 then pb.PageSize pagination else 10,
         pb.PageToken pagination)
    | None => (10, "")
    end in
  snd (ListTenants ErrNotFound_text svc req w)
  = {| svc_state := snd (service.svc_List svc (fst locals) (snd locals) (svc_state w));
       svc_calls := svc_calls w ++ [Svc_List (fst locals) (snd locals)] |}.
Proof.
  cbv zeta. unfold ListTenants. cbv zeta.
  apply bind_invoke_world. intros r w'.
  destruct (snd r).
  - apply bind_lift_world. reflexivity.
  - apply bind_lift_world. intros pbTenants.
    destruct (snd (fst r)); reflexivity.
Qed.

End HandlerFacts.

(** C5.  A [ListTenants] request with no pagination, or with a page size
    that is zero or negative, makes the handler call the service's [List]
    once with page size 10; a request with a positive page size makes it
    call [List] once with exactly that page size.  In each case the state
    behind the service afterwards is the one that call leaves. *)
Theorem ListTenants_page_size_default {S : Type} (ErrNotFound_text : string)
    (svc : service.TenantService S) (req : pb.ListTenantsRequest)
    (w : Grpc.world S) :
  (pb.ListTenantsRequest_Pagination req = None ->
   snd (Grpc.ListTenants ErrNotFound_text svc req w)
   = {| Grpc.svc_state := snd (service.svc_List svc 10 "" (Grpc.svc_state w));
        Grpc.svc_calls := Grpc.svc_calls w ++ [Grpc.Svc_List 10 ""] |}) /\
  (forall p : pb.PaginationRequest,
     pb.ListTenantsRequest_Pagination req = Some p ->
     pb.PageSize p <= 0 ->
     snd (Grpc.ListTenants ErrNotFound_text svc req w)
     = {| Grpc.svc_state :=
            snd (service.svc_List svc 10 (pb.PageToken p) (Grpc.svc_state w));
          Grpc.svc_calls :=
            Grpc.svc_calls w ++ [Grpc.Svc_List 10 (pb.PageToken p)] |}) /\
  (forall p : pb.PaginationRequest,
     pb.ListTenantsRequest_Pagination req = Some p ->
     0 < pb.PageSize p ->
     snd (Grpc.ListTenants ErrNotFound_text svc req w)
     = {| Grpc.svc_state :=
            snd (service.svc_List svc (pb.PageSize p) (pb.PageToken p)
                   (Grpc.svc_state w));
          Grpc.svc_calls :=
            Grpc.svc_calls w
            ++ [Grpc.Svc_List (pb.PageSize p) (pb.PageToken p)] |}).
Proof.
  pose proof (ListTenants_world ErrNotFound_text svc req w) as H.
  cbv zeta in H. split; [|split].
  - intros Hnil. rewrite Hnil in H. exact H.
  - intros p Hp Hle. rewrite Hp in H.
    destruct (Z.gtb_spec (pb.PageSize p) 0); [lia | exact H].
  - intros p Hp Hlt. rewrite Hp in H.
    destruct (Z.gtb_spec (pb.PageSize p) 0); [exact H | lia].
Qed.

(** No pagination, page size -3 and page size 25 against the test service. *)
Lemma ListTenants_page_size_default_witness :
  let w := {| Grpc.svc_state := ["acme"]; Grpc.svc_calls := [] |} in
  Grpc.svc_calls
    (snd (Grpc.ListTenants "not found" stubTenantService
            {| pb.ListTenantsRequest_Pagination := None |} w))
  = [Grpc.Svc_List 10 ""] /\
  Grpc.svc_calls
    (snd (Grpc.ListTenants "not found" stubTenantService
            {| pb.ListTenantsRequest_Pagination :=
                 Some {| pb.PageSize := -3; pb.PageToken := "tok" |} |} w))
  = [Grpc.Svc_List 10 "tok"] /\
  Grpc.svc_calls
    (snd (Grpc.ListTenants "not found" stubTenantService
            {| pb.ListTenantsRequest_Pagination :=
                 Some {| pb.PageSize := 25; pb.PageToken := "tok" |} |} w))
  = [Grpc.Svc_List 25 "tok"].
Proof.
  cbv zeta. split; [|split].
  - rewrite (proj1 (ListTenants_page_size_default "not found" stubTenantService
                      {| pb.ListTenantsRequest_Pagination := None |}
                      {| Grpc.svc_state := ["acme"]; Grpc.svc_calls := [] |}));
      reflexivity.
  - rewrite (proj1 (proj2 (ListTenants_page_size_default "not found"
                      stubTenantService
                      {| pb.ListTenantsRequest_Pagination :=
                           Some {| pb.PageSize := -3; pb.PageToken := "tok" |} |}
                      {| Grpc.svc_state := ["acme"]; Grpc.svc_calls := [] |}))
               {| pb.PageSize := -3; pb.PageToken := "tok" |});
      [reflexivity | reflexivity | simpl; lia].
  - rewrite (proj2 (proj2 (ListTenants_page_size_default "not found"
                      stubTenantService
                      {| pb.ListTenantsRequest_Pagination :=
                           Some {| pb.PageSize := 25; pb.PageToken := "tok" |} |}
                      {| Grpc.svc_state := ["acme"]; Grpc.svc_calls := [] |}))
               {| pb.PageSize := 25; pb.PageToken := "tok" |});
      [reflexivity | reflexivity | simpl; lia].
Defined.

(** C10.  [ListTenants] caps nothing: for every positive page size [n],
    however large, the handler calls the service's [List] once with page
    size [n] itself. *)
Theorem ListTenants_page_size_uncapped {S : Type} (ErrNotFound_text : string)
    (svc : service.TenantService S) (n : Z) (pageToken : string)
    (w : Grpc.world S) :
  0 < n ->
  snd (Grpc.ListTenants ErrNotFound_text svc
         {| pb.ListTenantsRequest_Pagination :=
              Some {| pb.PageSize := n; pb.PageToken := pageToken |} |} w)
  = {| Grpc.svc_state := snd (service.svc_List svc n pageToken (Grpc.svc_state w));
       Grpc.svc_calls := Grpc.svc_calls w ++ [Grpc.Svc_List n pageToken] |}.
Proof.
  intros Hn.
  pose proof (ListTenants_world ErrNotFound_text svc
                {| pb.ListTenantsRequest_Pagination :=
                     Some {| pb.PageSize := n; pb.PageToken := pageToken |} |} w) as H.
  cbv zeta in H. cbn [pb.ListTenantsRequest_Pagination pb.PageSize pb.PageToken] in H.
  destruct (Z.gtb_spec n 0); [exact H | lia].
Qed.

(** The largest [int32] page size is forwarded as it is. *)
Lemma ListTenants_page_size_uncapped_witness :
  Grpc.svc_calls
    (snd (Grpc.ListTenants "not found" stubTenantService
            {| pb.ListTenantsRequest_Pagination :=
                 Some {| pb.PageSize := 2147483647; pb.PageToken := "" |} |}
            {| Grpc.svc_state := []; Grpc.svc_calls := [] |}))
  = [Grpc.Svc_List 2147483647 ""].
Proof.
  rewrite (ListTenants_page_size_uncapped "not found" stubTenantService
             2147483647 "" {| Grpc.svc_state := []; Grpc.svc_calls := [] |});
    [reflexivity | lia].
Defined.

(** C4, as the code has it.  When the service's [Create] fails, whatever
    the cause, [CreateTenant] returns no response and a status that
    carries the message of the error and one of three codes, [NotFound],
    [InvalidArgument] or [Internal]: there is no code for a conflict.  An
    error that is not [ErrNotFound] and whose message contains neither
    "required" nor "invalid" (a uniqueness violation reported by the
    database, say) is surfaced as [Internal]. *)
Theorem CreateTenant_error_codes {S : Type} (ErrNotFound_text : string)
    (svc : service.TenantService S) (req : pb.CreateTenantRequest)
    (w : Grpc.world S) (tenant : option repository.Tenant) (err : error)
    (st' : S) :
  service.svc_Create svc (pb.CreateTenantRequest_Slug req)
    (pb.CreateTenantRequest_Name req) (Grpc.svc_state w)
  = (Done (tenant, Some err), st') ->
  exists st : status.Status,
    Grpc.CreateTenant ErrNotFound_text svc req w
    = (Done (None, Some st),
       {| Grpc.svc_state := st';
          Grpc.svc_calls :=
            Grpc.svc_calls w
            ++ [Grpc.Svc_Create (pb.CreateTenantRequest_Slug req)
                                (pb.CreateTenantRequest_Name req)] |}) /\
    status.Message st = Error ErrNotFound_text err /\
    (status.Code st = codes.NotFound \/
     status.Code st = codes.InvalidArgument \/
     status.Code st = codes.Internal) /\
    (Is_ErrNotFound (Some err) = false ->
     Grpc.containsAny (Error ErrNotFound_text err) ["required"; "invalid"]
     = Done false ->
     status.Code st = codes.Internal).
Proof.
  intros Hsvc. eexists. split; [|split; [|split]].
  - unfold Grpc.CreateTenant, bind, Grpc.invoke. rewrite Hsvc.
    cbn [fst snd lift]. rewrite mapError_Some. reflexivity.
  - reflexivity.
  - cbn [status.Code status.Error].
    destruct (IsNotFound_chain err); [auto|].
    destruct (_ || _); auto.
  - cbn [status.Code status.Error Is_ErrNotFound]. intros -> Hval.
    rewrite containsAny_pair in Hval. injection Hval as ->. reflexivity.
Qed.

(** A second tenant with the slug of the first, against the test service. *)
Lemma CreateTenant_error_codes_witness :
  exists st : status.Status,
    Grpc.CreateTenant "not found" stubTenantService
      {| pb.CreateTenantRequest_Slug := "acme";
         pb.CreateTenantRequest_Name := "Other" |}
      {| Grpc.svc_state := ["acme"]; Grpc.svc_calls := [] |}
    = (Done (None, Some st),
       {| Grpc.svc_state := ["acme"];
          Grpc.svc_calls := [Grpc.Svc_Create "acme" "Other"] |}) /\
    (status.Code st = codes.NotFound \/
     status.Code st = codes.InvalidArgument \/
     status.Code st = codes.Internal).
Proof.
  destruct (CreateTenant_error_codes "not found" stubTenantService
              {| pb.CreateTenantRequest_Slug := "acme";
                 pb.CreateTenantRequest_Name := "Other" |}
              {| Grpc.svc_state := ["acme"]; Grpc.svc_calls := [] |}
              None
              (errorString
                 "failed to create tenant: pq: duplicate key value violates unique constraint tenants_slug_key")
              ["acme"])
    as (st & Hrun & _ & Hcode & _).
  - reflexivity.
  - exists st. split; [exact Hrun | exact Hcode].
Defined.

(** C4, as the specification has it, fails: creating a second tenant with
    the slug "acme" surfaces the status [Internal], which is none of the
    codes gRPC has for a conflict. *)
Lemma CreateTenant_duplicate_slug_is_Internal :
  let first := {| pb.CreateTenantRequest_Slug := "acme";
                  pb.CreateTenantRequest_Name := "Acme" |} in
  let second := {| pb.CreateTenantRequest_Slug := "acme";
                   pb.CreateTenantRequest_Name := "Other" |} in
  let w0 := {| Grpc.svc_state := []; Grpc.svc_calls := [] |} in
  exists (created : pb.CreateTenantResponse) (w1 : Grpc.world (list string))
         (st : status.Status) (w2 : Grpc.world (list string)),
    Grpc.CreateTenant "not found" stubTenantService first w0
    = (Done (Some created, None), w1) /\
    Grpc.CreateTenant "not found" stubTenantService second w1
    = (Done (None, Some st), w2) /\
    status.Code st = codes.Internal /\
    status.Code st <> codes.AlreadyExists /\
    status.Code st <> codes.Aborted /\
    status.Code st <> codes.FailedPrecondition.
Proof.
  cbv zeta. do 4 eexists.
  split; [vm_compute; reflexivity|].
  split; [vm_compute; reflexivity|].
  cbn [status.Code]. repeat split; discriminate.
Qed.

(** ** The relationship service *)

Section ServiceFacts.
Import repository service.
Context {S : Type}.
Variable repo : RelationshipRepository S.

Lemma eqb_empty_false (s : string) : s <> "" -> String.eqb s "" = false.
Proof. intros H. apply String.eqb_neq. exact H. Qed.

(** The start of [Update] when both identifiers are given: [GetByID] is
    called and logged, and the run goes on from its answer. *)
Lemma Update_after_GetByID (tenantID id relType data : string) (w : world S)
    (r : option loc * option error) (st : S) (h : gmap loc Relationship) :
  id <> "" -> tenantID <> "" ->
  repo_GetByID repo tenantID id (store w, objs w) = (Done r, (st, h)) ->
  Update repo tenantID id relType data w
  = (match snd r with
     | Some _ => ret (None, snd r)
     | None =>
         _ <- (if negb (String.eqb relType "")
               then assign (fst r) (set_RelationshipType relType)
               else ret tt) ;;
         _ <- (if negb (String.eqb data "")
               then assign (fst r) (set_Data data)
               else ret tt) ;;
         invoke (Call_Update (fst r)) (repo_Update repo (fst r))
     end)
      {| store := st; objs := h; calls := calls w ++ [Call_GetByID tenantID id] |}.
Proof.
  intros Hid Hten Hget. unfold Update.
  rewrite (eqb_empty_false _ Hid), (eqb_empty_false _ Hten).
  unfold bind at 1. unfold invoke at 1. rewrite Hget. reflexivity.
Qed.

Lemma set_fields_eta (relType data : string) (rel : Relationship) :
  relType = "" -> data = "" ->
  {| ID := ID rel; TenantID := TenantID rel; SourceNodeID := SourceNodeID rel;
     TargetNodeID := TargetNodeID rel;
     RelationshipType :=
       if String.eqb relType "" then RelationshipType rel else relType;
     Data := if String.eqb data "" then Data rel else data;
     CreatedAt := CreatedAt rel; UpdatedAt := UpdatedAt rel |} = rel.
Proof. intros -> ->. destruct rel; reflexivity. Qed.

End ServiceFacts.

(** A guard that fired: the operation has returned its validation error
    in the world it started from, and [mapError] evaluates on that error. *)
Ltac rejected :=
  eexists; split; [reflexivity | vm_compute; reflexivity].

(** C1.  In every operation of the relationship service an empty required
    argument ([tenantID] everywhere; [id] in [GetByID], [Update] and
    [Delete]; [sourceNodeID], [targetNodeID] and [relType] in [Create])
    makes the operation return a nil result and an error that [mapError]
    classifies as [InvalidArgument], and leaves the world as it was: no
    repository method is called, the store and the heap are untouched. *)
Theorem RelationshipService_rejects_empty_fields {S : Type}
    (ErrNotFound_text : string)
    (repo : repository.RelationshipRepository S) (w : service.world S) :
  (forall tenantID sourceNodeID targetNodeID relType data : string,
     tenantID = "" \/ sourceNodeID = "" \/ targetNodeID = "" \/ relType = "" ->
     exists e : error,
       service.Create repo tenantID sourceNodeID targetNodeID relType data w
       = (Done (None, Some e), w) /\
       Grpc.mapError ErrNotFound_text (Some e)
       = Done (status.Error codes.InvalidArgument (Error ErrNotFound_text e))) /\
  (forall tenantID id : string,
     tenantID = "" \/ id = "" ->
     exists e : error,
       service.GetByID repo tenantID id w = (Done (None, Some e), w) /\
       Grpc.mapError ErrNotFound_text (Some e)
       = Done (status.Error codes.InvalidArgument (Error ErrNotFound_text e))) /\
  (forall tenantID id relType data : string,
     tenantID = "" \/ id = "" ->
     exists e : error,
       service.Update repo tenantID id relType data w
       = (Done (None, Some e), w) /\
       Grpc.mapError ErrNotFound_text (Some e)
       = Done (status.Error codes.InvalidArgument (Error ErrNotFound_text e))) /\
  (forall tenantID id : string,
     tenantID = "" \/ id = "" ->
     exists e : error,
       service.Delete repo tenantID id w = (Done (Some e), w) /\
       Grpc.mapError ErrNotFound_text (Some e)
       = Done (status.Error codes.InvalidArgument (Error ErrNotFound_text e))) /\
  (forall (tenantID sourceNodeID targetNodeID relType : string) (pageSize : Z)
          (pageToken : string),
     tenantID = "" ->
     exists e : error,
       service.List repo tenantID sourceNodeID targetNodeID relType
         pageSize pageToken w
       = (Done ([], None, Some e), w) /\
       Grpc.mapError ErrNotFound_text (Some e)
       = Done (status.Error codes.InvalidArgument (Error ErrNotFound_text e))).
Proof.
  repeat apply conj.
  - intros tenantID sourceNodeID targetNodeID relType data H.
    unfold service.Create.
    destruct (String.eqb_spec tenantID "");
      [rejected|].
    destruct (String.eqb_spec sourceNodeID "");
      [rejected|].
    destruct (String.eqb_spec targetNodeID "");
      [rejected|].
    destruct (String.eqb_spec relType "");
      [rejected|].
    tauto.
  - intros tenantID id H. unfold service.GetByID.
    destruct (String.eqb_spec id "");
      [rejected|].
    destruct (String.eqb_spec tenantID "");
      [rejected|].
    tauto.
  - intros tenantID id relType data H. unfold service.Update.
    destruct (String.eqb_spec id "");
      [rejected|].
    destruct (String.eqb_spec tenantID "");
      [rejected|].
    tauto.
  - intros tenantID id H. unfold service.Delete.
    destruct (String.eqb_spec id "");
      [rejected|].
    destruct (String.eqb_spec tenantID "");
      [rejected|].
    tauto.
  - intros tenantID sourceNodeID targetNodeID relType pageSize pageToken ->.
    rejected.
Qed.

(** [Create] with an empty [targetNodeID] and [Delete] with an empty
    [tenantID], against the test repository. *)
Lemma RelationshipService_rejects_empty_fields_witness :
  (exists e : error,
     service.Create stubRepo "acme" "n1" "" "depends_on" "{}" sampleWorld
     = (Done (None, Some e), sampleWorld) /\
     Grpc.mapError "not found" (Some e)
     = Done (status.Error codes.InvalidArgument (Error "not found" e))) /\
  (exists e : error,
     service.Delete stubRepo "" "r1" sampleWorld = (Done (Some e), sampleWorld) /\
     Grpc.mapError "not found" (Some e)
     = Done (status.Error codes.InvalidArgument (Error "not found" e))).
Proof.
  pose proof (RelationshipService_rejects_empty_fields "not found" stubRepo
                sampleWorld) as (HCreate & _ & _ & HDelete & _).
  split.
  - apply (HCreate "acme" "n1" "" "depends_on" "{}").
    right. right. left. reflexivity.
  - apply (HDelete "" "r1"). left. reflexivity.
Defined.

(** C7.  When both identifiers are given and the repository's [GetByID]
    returns an error ([ErrNotFound] for an absent row, or any other),
    [Update] returns a nil relationship and that very error; the only
    repository method called is [GetByID], so the repository's [Update]
    is not called, and the store and the heap are those [GetByID] left. *)
Theorem Update_stops_on_GetByID_error {S : Type}
    (repo : repository.RelationshipRepository S)
    (tenantID id relType data : string) (w : service.world S)
    (rel : option repository.loc) (err : error)
    (st : S) (h : gmap repository.loc repository.Relationship) :
  id <> "" -> tenantID <> "" ->
  repository.repo_GetByID repo tenantID id (service.store w, service.objs w)
  = (Done (rel, Some err), (st, h)) ->
  service.Update repo tenantID id relType data w
  = (Done (None, Some err),
     {| service.store := st; service.objs := h;
        service.calls := service.calls w ++ [service.Call_GetByID tenantID id] |})
  /\ forall p : option repository.loc,
       service.Call_Update p ∉ [service.Call_GetByID tenantID id].
Proof.
  intros Hid Hten Hget. split.
  - rewrite (Update_after_GetByID repo _ _ _ _ _ _ _ _ Hid Hten Hget).
    reflexivity.
  - intros p Hin. apply list_elem_of_singleton in Hin. discriminate.
Qed.

(** [Update] of an identifier the test repository does not know. *)
Lemma Update_stops_on_GetByID_error_witness :
  service.Update stubRepo "acme" "missing" "blocks" "{}" sampleWorld
  = (Done (None, Some (wrapError "relationship not found" ErrNotFound)),
     {| service.store := service.store sampleWorld;
        service.objs := service.objs sampleWorld;
        service.calls := [service.Call_GetByID "acme" "missing"] |}).
Proof.
  apply (Update_stops_on_GetByID_error stubRepo "acme" "missing" "blocks" "{}"
           sampleWorld None (wrapError "relationship not found" ErrNotFound)
           (service.store sampleWorld) (service.objs sampleWorld));
    [discriminate | discriminate | reflexivity].
Defined.

(** C2.  When both identifiers are given and the repository's [GetByID]
    returns the relationship [rel] (at location [l]) with no error,
    [Update] calls the repository's [Update] with that same pointer, on a
    heap where the object differs from [rel] at most in
    [RelationshipType] (overwritten when [relType] is not empty) and in
    [Data] (overwritten when [data] is not empty); every other field,
    and every other object, is as [GetByID] left it.  With [relType] and
    [data] both empty the heap is exactly the one [GetByID] left. *)
Theorem Update_overwrites_only_given_fields {S : Type}
    (repo : repository.RelationshipRepository S)
    (tenantID id relType data : string) (w : service.world S)
    (l : repository.loc) (rel : repository.Relationship)
    (st : S) (h : gmap repository.loc repository.Relationship) :
  id <> "" -> tenantID <> "" ->
  repository.repo_GetByID repo tenantID id (service.store w, service.objs w)
  = (Done (Some l, None), (st, h)) ->
  h !! l = Some rel ->
  let rel' :=
    {| repository.ID := repository.ID rel;
       repository.TenantID := repository.TenantID rel;
       repository.SourceNodeID := repository.SourceNodeID rel;
       repository.TargetNodeID := repository.TargetNodeID rel;
       repository.RelationshipType :=
         if String.eqb relType "" then repository.RelationshipType rel
         else relType;
       repository.Data :=
         if String.eqb data "" then repository.Data rel else data;
       repository.CreatedAt := repository.CreatedAt rel;
       repository.UpdatedAt := repository.UpdatedAt rel |} in
  service.Update repo tenantID id relType data w
  = service.invoke (service.Call_Update (Some l))
      (repository.repo_Update repo (Some l))
      {| service.store := st; service.objs := <[l := rel']> h;
         service.calls := service.calls w ++ [service.Call_GetByID tenantID id] |}
  /\ (relType = "" -> data = "" -> <[l := rel']> h = h).
Proof.
  intros Hid Hten Hget Hl rel'. split.
  - rewrite (Update_after_GetByID repo _ _ _ _ _ _ _ _ Hid Hten Hget).
    cbn [fst snd]. subst rel'.
    destruct (String.eqb_spec relType "") as [-> | HrelType];
      destruct (String.eqb_spec data "") as [-> | Hdata];
      cbn [negb]; unfold bind, ret, service.assign; cbn [service.objs];
      rewrite ?lookup_insert_eq, ?Hl; cbn [service.store service.objs service.calls].
    + rewrite insert_id; [reflexivity|].
      rewrite Hl. destruct rel; reflexivity.
    + reflexivity.
    + reflexivity.
    + rewrite lookup_insert_eq, insert_insert_eq. reflexivity.
  - intros -> ->. subst rel'. apply insert_id. rewrite Hl.
    f_equal. symmetry. apply (set_fields_eta "" ""); reflexivity.
Qed.

(** [Update] of the sample relationship, first with a new type only, then
    with nothing to change. *)
Lemma Update_overwrites_only_given_fields_witness :
  service.Update stubRepo "acme" "r1" "blocks" "" sampleWorld
  = (Done (Some 1%positive, None),
     {| service.store := service.store sampleWorld;
        service.objs :=
          {[1%positive := repository.set_RelationshipType "blocks" sampleRelationship]};
        service.calls :=
          [service.Call_GetByID "acme" "r1"; service.Call_Update (Some 1%positive)] |})
  /\ service.Update stubRepo "acme" "r1" "" "" sampleWorld
  = (Done (Some 1%positive, None),
     {| service.store := service.store sampleWorld;
        service.objs := service.objs sampleWorld;
        service.calls :=
          [service.Call_GetByID "acme" "r1"; service.Call_Update (Some 1%positive)] |}).
Proof.
  split.
  - rewrite (proj1 (Update_overwrites_only_given_fields stubRepo
               "acme" "r1" "blocks" "" sampleWorld 1%positive sampleRelationship
               (service.store sampleWorld) (service.objs sampleWorld)
               ltac:(discriminate) ltac:(discriminate) eq_refl eq_refl)).
    vm_compute. reflexivity.
  - rewrite (proj1 (Update_overwrites_only_given_fields stubRepo
               "acme" "r1" "" "" sampleWorld 1%positive sampleRelationship
               (service.store sampleWorld) (service.objs sampleWorld)
               ltac:(discriminate) ltac:(discriminate) eq_refl eq_refl)).
    vm_compute. reflexivity.
Defined.

(** * Further properties of the two files *)

(** ** The string helpers *)

Section MoreStringFacts.
Import Grpc.

Lemma append_assoc (a b c : string) : (a +:+ b) +:+ c = a +:+ (b +:+ c).
Proof.
  induction a as [|x a IH]; [reflexivity|].
  rewrite !append_cons, IH. reflexivity.
Qed.

Lemma occursIn_trans (a b c : string) :
  occursIn b a -> occursIn c b -> occursIn c a.
Proof.
  intros (p1 & q1 & ->) (p2 & q2 & ->).
  exists (p1 +:+ p2), (q2 +:+ q1).
  rewrite !append_assoc. reflexivity.
Qed.

Lemma length_zero_empty (s : string) : String.length s = 0%nat -> s = "".
Proof. destruct s; [reflexivity | discriminate]. Qed.

Lemma occursIn_antisym (a b : string) :
  occursIn b a -> occursIn a b -> a = b.
Proof.
  intros (p & q & Ha) Hba. apply occursIn_len in Hba.
  assert (Hlen : String.length a
                 = (String.length p + (String.length b + String.length q))%nat).
  { rewrite Ha, !length_append. reflexivity. }
  unfold len in Hba.
  assert (p = "") as -> by (apply length_zero_empty; lia).
  assert (q = "") as -> by (apply length_zero_empty; lia).
  rewrite Ha, append_nil_l, append_nil_r. reflexivity.
Qed.

Lemma contains_true_occursIn (s substr : string) :
  contains s substr = Done true <-> occursIn substr s.
Proof.
  rewrite contains_strings_Contains, <- strings_Contains_occursIn.
  split; [intros H; injection H as ->; reflexivity | intros ->; reflexivity].
Qed.

End MoreStringFacts.

(** X1.  [containsAt] is safe and exact by itself, for every pair of
    strings: it never slices out of range (when [substr] is longer than
    [s] the loop runs no iteration), and it returns [true] exactly when
    [substr] occurs in [s].  The guards of [contains] in front of it
    change no result. *)
Theorem containsAt_alone_is_substring_test (s substr : string) :
  exists b : bool,
    Grpc.containsAt s substr = Done b /\
    (b = true <-> occursIn substr s) /\
    Grpc.contains s substr = Grpc.containsAt s substr.
Proof.
  assert (H : Grpc.containsAt s substr = Done (strings_Contains s substr)).
  { destruct (Z.le_gt_cases (len substr) (len s)) as [Hle | Hgt].
    - apply containsAt_strings_Contains. exact Hle.
    - unfold Grpc.containsAt. rewrite seqZ_nil by lia.
      cbn [Grpc.containsAt_loop]. f_equal. symmetry.
      apply not_true_is_false. intros Hc.
      apply strings_Contains_occursIn, occursIn_len in Hc. lia. }
  exists (strings_Contains s substr). split; [exact H|]. split.
  - apply strings_Contains_occursIn.
  - rewrite H. apply contains_strings_Contains.
Qed.

(** X2.  [containsAny] returns for every string and every list of
    substrings, and returns [true] exactly when one of the substrings
    occurs in the string; with no substring at all it returns [false]. *)
Theorem containsAny_iff_one_occurs (s : string) (substrs : list string) :
  (exists b : bool,
     Grpc.containsAny s substrs = Done b /\
     (b = true <-> exists substr, substr ∈ substrs /\ occursIn substr s)) /\
  Grpc.containsAny s [] = Done false.
Proof.
  split; [|reflexivity].
  induction substrs as [|x substrs (b & Hb & IH)].
  - exists false. split; [reflexivity|]. split; [discriminate|].
    intros (substr & Hin & _). apply elem_of_nil in Hin. contradiction.
  - cbn [Grpc.containsAny]. rewrite contains_strings_Contains.
    destruct (strings_Contains s x) eqn:Hx.
    + exists true. split; [reflexivity|]. split; [|reflexivity].
      intros _. exists x. split; [apply list_elem_of_here|].
      apply strings_Contains_occursIn. exact Hx.
    + exists b. split; [exact Hb|]. rewrite IH. split.
      * intros (substr & Hin & Hocc). exists substr.
        split; [apply list_elem_of_further; exact Hin | exact Hocc].
      * intros (substr & Hin & Hocc).
        apply elem_of_cons in Hin as [-> | Hin].
        -- apply strings_Contains_occursIn in Hocc. congruence.
        -- exists substr. split; assumption.
Qed.

(** X3.  As a relation between strings, [contains] is an order: a string
    found in a string that is itself found in a third is found in the
    third, and two strings found in each other are equal. *)
Theorem contains_is_an_order (a b c : string) :
  (Grpc.contains a b = Done true -> Grpc.contains b c = Done true ->
   Grpc.contains a c = Done true) /\
  (Grpc.contains a b = Done true -> Grpc.contains b a = Done true -> a = b).
Proof.
  rewrite !contains_true_occursIn. split.
  - apply occursIn_trans.
  - apply occursIn_antisym.
Qed.

(** "not found" lies in "tenant not found", which lies in a longer
    message. *)
Lemma contains_is_an_order_witness :
  Grpc.contains "get: tenant not found (id t1)" "not found" = Done true.
Proof.
  apply (proj1 (contains_is_an_order "get: tenant not found (id t1)"
                  "tenant not found" "not found"));
    vm_compute; reflexivity.
Defined.

(** ** The error mapping *)

(** X4.  On every non-nil error [mapError] returns a status that carries
    [err.Error()] unchanged, and its code is decided by two facts alone,
    whether the sentinel [ErrNotFound] is on the error's chain and whether
    "required" or "invalid" occurs anywhere in the message:
    [NotFound] exactly when the sentinel is on the chain; otherwise
    [InvalidArgument] exactly when one of the two words occurs, and
    [Internal] exactly when neither does. *)
Theorem mapError_classification (ErrNotFound_text : string) (err : error) :
  exists st : status.Status,
    Grpc.mapError ErrNotFound_text (Some err) = Done st /\
    status.Message st = Error ErrNotFound_text err /\
    (status.Code st = codes.NotFound <-> Is_ErrNotFound (Some err) = true) /\
    (status.Code st = codes.InvalidArgument <->
       Is_ErrNotFound (Some err) = false /\
       (occursIn "required" (Error ErrNotFound_text err) \/
        occursIn "invalid" (Error ErrNotFound_text err))) /\
    (status.Code st = codes.Internal <->
       Is_ErrNotFound (Some err) = false /\
       ~ occursIn "required" (Error ErrNotFound_text err) /\
       ~ occursIn "invalid" (Error ErrNotFound_text err)).
Proof.
  eexists. split; [apply mapError_Some|].
  cbn [status.Message status.Code status.Error Is_ErrNotFound].
  split; [reflexivity|].
  rewrite <- !strings_Contains_occursIn.
  destruct (IsNotFound_chain err);
    destruct (strings_Contains (Error ErrNotFound_text err) "required");
    destruct (strings_Contains (Error ErrNotFound_text err) "invalid");
    cbn [orb]; repeat split; intros; try discriminate; try reflexivity;
    intuition (auto; discriminate).
Qed.

(** X5.  [mapError] returns exactly on the non-nil errors: handed a nil
    error it panics, on the [err.Error()] of its last [return]. *)
Theorem mapError_returns_iff_not_nil (ErrNotFound_text : string)
    (err : option error) :
  (exists st : status.Status, Grpc.mapError ErrNotFound_text err = Done st)
  <-> err <> None.
Proof.
  destruct err as [e|]; split.
  - discriminate.
  - intros _. eexists. apply mapError_Some.
  - intros [st H]. discriminate H.
  - congruence.
Qed.

(** ** The handlers *)

Section MoreHandlerFacts.
Import Grpc.

Lemma int32_in_range (x : Z) : - 2 ^ 31 <= int32 x < 2 ^ 31.
Proof.
  unfold int32.
  pose proof (Z.mod_pos_bound (x + 2 ^ 31) (2 ^ 32) ltac:(lia)). lia.
Qed.

Lemma int32_small (x : Z) : - 2 ^ 31 <= x < 2 ^ 31 -> int32 x = x.
Proof.
  intros H. unfold int32. rewrite Z.mod_small; lia.
Qed.

Lemma tenantsToProto_Some (ts : list repository.Tenant) :
  exists ps : list pb.Tenant,
    tenantsToProto (map Some ts) = Done ps /\
    Forall2 (fun t p => tenantToProto (Some t) = Done p) ts ps.
Proof.
  induction ts as [|t ts (ps & Hps & HF)].
  - exists []. split; [reflexivity | constructor].
  - eexists (_ :: ps). split.
    + cbn [map tenantsToProto tenantToProto obind]. rewrite Hps. reflexivity.
    + constructor; [reflexivity | exact HF].
Qed.

Lemma tenantsToProto_panics (tenants : list (option repository.Tenant)) :
  tenantsToProto tenants = Panicked <-> None ∈ tenants.
Proof.
  induction tenants as [|t tenants IH].
  - split; [discriminate | intros H; apply elem_of_nil in H; contradiction].
  - cbn [tenantsToProto]. rewrite elem_of_cons. destruct t as [t|].
    + cbn [tenantToProto obind].
      destruct (tenantsToProto tenants) as [ps|]; cbn [obind].
      * split; [discriminate|]. intros [H | H]; [discriminate|].
        apply IH in H. discriminate.
      * split; [|reflexivity]. intros _. right. apply IH. reflexivity.
    + split; [intros _; left; reflexivity | reflexivity].
Qed.

End MoreHandlerFacts.

(** X6.  [CreateTenant], [GetTenant], [UpdateTenant] and [DeleteTenant]
    each call the service exactly once, with the fields of the request
    unchanged, whatever the service answers (a result, an error or a
    panic): afterwards the state behind the service is the one that call
    left and the log has that one call more.  No handler retries, and none
    calls a second method. *)
Theorem handlers_call_service_once {S : Type} (ErrNotFound_text : string)
    (svc : service.TenantService S) (w : Grpc.world S) :
  (forall req : pb.CreateTenantRequest,
     snd (Grpc.CreateTenant ErrNotFound_text svc req w)
     = {| Grpc.svc_state :=
            snd (service.svc_Create svc (pb.CreateTenantRequest_Slug req)
                   (pb.CreateTenantRequest_Name req) (Grpc.svc_state w));
          Grpc.svc_calls :=
            Grpc.svc_calls w
            ++ [Grpc.Svc_Create (pb.CreateTenantRequest_Slug req)
                                (pb.CreateTenantRequest_Name req)] |}) /\
  (forall req : pb.GetTenantRequest,
     snd (Grpc.GetTenant ErrNotFound_text svc req w)
     = {| Grpc.svc_state :=
            snd (service.svc_GetByID svc (pb.GetTenantRequest_Id req)
                   (Grpc.svc_state w));
          Grpc.svc_calls :=
            Grpc.svc_calls w ++ [Grpc.Svc_GetByID (pb.GetTenantRequest_Id req)] |}) /\
  (forall req : pb.UpdateTenantRequest,
     snd (Grpc.UpdateTenant ErrNotFound_text svc req w)
     = {| Grpc.svc_state :=
            snd (service.svc_Update svc (pb.UpdateTenantRequest_Id req)
                   (pb.UpdateTenantRequest_Slug req)
                   (pb.UpdateTenantRequest_Name req)
                   (pb.UpdateTenantRequest_Status req) (Grpc.svc_state w));
          Grpc.svc_calls :=
            Grpc.svc_calls w
            ++ [Grpc.Svc_Update (pb.UpdateTenantRequest_Id req)
                                (pb.UpdateTenantRequest_Slug req)
                                (pb.UpdateTenantRequest_Name req)
                                (pb.UpdateTenantRequest_Status req)] |}) /\
  (forall req : pb.DeleteTenantRequest,
     snd (Grpc.DeleteTenant ErrNotFound_text svc req w)
     = {| Grpc.svc_state :=
            snd (service.svc_Delete svc (pb.DeleteTenantRequest_Id req)
                   (Grpc.svc_state w));
          Grpc.svc_calls :=
            Grpc.svc_calls w ++ [Grpc.Svc_Delete (pb.DeleteTenantRequest_Id req)] |}).
Proof.
  repeat apply conj; intros req;
    [unfold Grpc.CreateTenant | unfold Grpc.GetTenant
    | unfold Grpc.UpdateTenant | unfold Grpc.DeleteTenant];
    apply bind_invoke_world; intros r w';
    try (destruct (snd r); apply bind_lift_world; reflexivity).
  destruct r; [apply bind_lift_world; reflexivity | reflexivity].
Qed.

(** X7.  When the service answers with a non-nil error, [GetTenant],
    [UpdateTenant], [DeleteTenant] and [ListTenants] return a nil response
    and the status [mapError] gives for that error; whatever else came
    with the error (a tenant, a nil pointer, a list, a nil result) is not
    looked at, so the handler does not panic. *)
Theorem handlers_surface_service_error {S : Type} (ErrNotFound_text : string)
    (svc : service.TenantService S) (w : Grpc.world S) (err : error) :
  exists st : status.Status,
    Grpc.mapError ErrNotFound_text (Some err) = Done st /\
    (forall (req : pb.GetTenantRequest) tenant st',
       service.svc_GetByID svc (pb.GetTenantRequest_Id req) (Grpc.svc_state w)
       = (Done (tenant, Some err), st') ->
       fst (Grpc.GetTenant ErrNotFound_text svc req w) = Done (None, Some st)) /\
    (forall (req : pb.UpdateTenantRequest) tenant st',
       service.svc_Update svc (pb.UpdateTenantRequest_Id req)
         (pb.UpdateTenantRequest_Slug req) (pb.UpdateTenantRequest_Name req)
         (pb.UpdateTenantRequest_Status req) (Grpc.svc_state w)
       = (Done (tenant, Some err), st') ->
       fst (Grpc.UpdateTenant ErrNotFound_text svc req w) = Done (None, Some st)) /\
    (forall (req : pb.DeleteTenantRequest) st',
       service.svc_Delete svc (pb.DeleteTenantRequest_Id req) (Grpc.svc_state w)
       = (Done (Some err), st') ->
       fst (Grpc.DeleteTenant ErrNotFound_text svc req w) = Done (None, Some st)) /\
    (forall (req : pb.ListTenantsRequest) tenants result st',
       let locals :=
         match pb.ListTenantsRequest_Pagination req with
         | Some pagination =>
             (if pb.PageSize pagination >? 0 then pb.PageSize pagination else 10,
              pb.PageToken pagination)
         | None => (10, "")
         end in
       service.svc_List svc (fst locals) (snd locals) (Grpc.svc_state w)
       = (Done (tenants, result, Some err), st') ->
       fst (Grpc.ListTenants ErrNotFound_text svc req w) = Done (None, Some st)).
Proof.
  eexists. split; [apply mapError_Some|]. repeat apply conj.
  - intros req tenant st' H. unfold Grpc.GetTenant, bind, Grpc.invoke.
    rewrite H. cbn [fst snd lift]. rewrite mapError_Some. reflexivity.
  - intros req tenant st' H. unfold Grpc.UpdateTenant, bind, Grpc.invoke.
    rewrite H. cbn [fst snd lift]. rewrite mapError_Some. reflexivity.
  - intros req st' H. unfold Grpc.DeleteTenant, bind, Grpc.invoke.
    rewrite H. cbn [fst snd lift]. rewrite mapError_Some. reflexivity.
  - intros req tenants result st' locals H. subst locals.
    unfold Grpc.ListTenants. cbv zeta. unfold bind, Grpc.invoke.
    rewrite H. cbn [fst snd lift]. rewrite mapError_Some. reflexivity.
Qed.

(** Fetching an unknown tenant from the one-tenant service. *)
Lemma handlers_surface_service_error_witness :
  fst (Grpc.GetTenant "not found" oneTenantService
         {| pb.GetTenantRequest_Id := "t9" |}
         {| Grpc.svc_state := Some sampleTenant; Grpc.svc_calls := [] |})
  = Done (None, Some {| status.Code := codes.NotFound;
                        status.Message := "tenant not found" |}).
Proof.
  destruct (handlers_surface_service_error "not found" oneTenantService
              {| Grpc.svc_state := Some sampleTenant; Grpc.svc_calls := [] |}
              (wrapError "tenant not found" ErrNotFound))
    as (st & Hst & HGet & _).
  vm_compute in Hst. injection Hst as <-.
  apply (HGet {| pb.GetTenantRequest_Id := "t9" |} None (Some sampleTenant)).
  reflexivity.
Defined.

(** X8.  When the service answers with a tenant and a nil error,
    [CreateTenant], [GetTenant] and [UpdateTenant] return a nil error and
    a response whose tenant has the identifier, slug, name and status of
    the service's tenant, copied as they are, and its two timestamps
    converted by [timestamppb.New]; [DeleteTenant], on a nil error,
    returns the empty response and a nil error. *)
Theorem handlers_return_service_tenant {S : Type} (ErrNotFound_text : string)
    (svc : service.TenantService S) (w : Grpc.world S) (t : repository.Tenant) :
  let p := {| pb.Id := repository.Tenant_ID t;
              pb.Slug := repository.Tenant_Slug t;
              pb.Name := repository.Tenant_Name t;
              pb.Status := repository.Tenant_Status t;
              pb.CreatedAt := timestamppb.New (repository.Tenant_CreatedAt t);
              pb.UpdatedAt := timestamppb.New (repository.Tenant_UpdatedAt t) |} in
  (forall (req : pb.CreateTenantRequest) st',
     service.svc_Create svc (pb.CreateTenantRequest_Slug req)
       (pb.CreateTenantRequest_Name req) (Grpc.svc_state w)
     = (Done (Some t, None), st') ->
     fst (Grpc.CreateTenant ErrNotFound_text svc req w)
     = Done (Some {| pb.CreateTenantResponse_Tenant := p |}, None)) /\
  (forall (req : pb.GetTenantRequest) st',
     service.svc_GetByID svc (pb.GetTenantRequest_Id req) (Grpc.svc_state w)
     = (Done (Some t, None), st') ->
     fst (Grpc.GetTenant ErrNotFound_text svc req w)
     = Done (Some {| pb.GetTenantResponse_Tenant := p |}, None)) /\
  (forall (req : pb.UpdateTenantRequest) st',
     service.svc_Update svc (pb.UpdateTenantRequest_Id req)
       (pb.UpdateTenantRequest_Slug req) (pb.UpdateTenantRequest_Name req)
       (pb.UpdateTenantRequest_Status req) (Grpc.svc_state w)
     = (Done (Some t, None), st') ->
     fst (Grpc.UpdateTenant ErrNotFound_text svc req w)
     = Done (Some {| pb.UpdateTenantResponse_Tenant := p |}, None)) /\
  (forall (req : pb.DeleteTenantRequest) st',
     service.svc_Delete svc (pb.DeleteTenantRequest_Id req) (Grpc.svc_state w)
     = (Done None, st') ->
     fst (Grpc.DeleteTenant ErrNotFound_text svc req w)
     = Done (Some pb.Build_DeleteTenantResponse, None)).
Proof.
  cbv zeta. repeat apply conj; intros req st' H;
    [unfold Grpc.CreateTenant | unfold Grpc.GetTenant
    | unfold Grpc.UpdateTenant | unfold Grpc.DeleteTenant];
    unfold bind, Grpc.invoke; rewrite H; reflexivity.
Qed.

(** Fetching the tenant of the one-tenant service. *)
Lemma handlers_return_service_tenant_witness :
  fst (Grpc.GetTenant "not found" oneTenantService
         {| pb.GetTenantRequest_Id := "t1" |}
         {| Grpc.svc_state := Some sampleTenant; Grpc.svc_calls := [] |})
  = Done (Some {| pb.GetTenantResponse_Tenant :=
                    {| pb.Id := "t1"; pb.Slug := "acme"; pb.Name := "Acme";
                       pb.Status := "active";
                       pb.CreatedAt := {| timestamppb.Seconds := 1764403200;
                                          timestamppb.Nanos := 5 |};
                       pb.UpdatedAt := {| timestamppb.Seconds := 1764403300;
                                          timestamppb.Nanos := 7 |} |} |},
           None).
Proof.
  apply (proj1 (proj2 (handlers_return_service_tenant "not found" oneTenantService
                  {| Grpc.svc_state := Some sampleTenant; Grpc.svc_calls := [] |}
                  sampleTenant))
           {| pb.GetTenantRequest_Id := "t1" |} (Some sampleTenant)).
  reflexivity.
Defined.

(** X9.  When the service answers with a nil tenant and a nil error,
    [CreateTenant], [GetTenant] and [UpdateTenant] panic, in
    [tenantToProto]; the service call has been made by then, and its
    effect on the state behind the service stays. *)
Theorem handlers_panic_on_nil_tenant {S : Type} (ErrNotFound_text : string)
    (svc : service.TenantService S) (w : Grpc.world S) :
  (forall (req : pb.CreateTenantRequest) st',
     service.svc_Create svc (pb.CreateTenantRequest_Slug req)
       (pb.CreateTenantRequest_Name req) (Grpc.svc_state w)
     = (Done (None, None), st') ->
     Grpc.CreateTenant ErrNotFound_text svc req w
     = (Panicked,
        {| Grpc.svc_state := st';
           Grpc.svc_calls :=
             Grpc.svc_calls w
             ++ [Grpc.Svc_Create (pb.CreateTenantRequest_Slug req)
                                 (pb.CreateTenantRequest_Name req)] |})) /\
  (forall (req : pb.GetTenantRequest) st',
     service.svc_GetByID svc (pb.GetTenantRequest_Id req) (Grpc.svc_state w)
     = (Done (None, None), st') ->
     Grpc.GetTenant ErrNotFound_text svc req w
     = (Panicked,
        {| Grpc.svc_state := st';
           Grpc.svc_calls :=
             Grpc.svc_calls w ++ [Grpc.Svc_GetByID (pb.GetTenantRequest_Id req)] |})) /\
  (forall (req : pb.UpdateTenantRequest) st',
     service.svc_Update svc (pb.UpdateTenantRequest_Id req)
       (pb.UpdateTenantRequest_Slug req) (pb.UpdateTenantRequest_Name req)
       (pb.UpdateTenantRequest_Status req) (Grpc.svc_state w)
     = (Done (None, None), st') ->
     Grpc.UpdateTenant ErrNotFound_text svc req w
     = (Panicked,
        {| Grpc.svc_state := st';
           Grpc.svc_calls :=
             Grpc.svc_calls w
             ++ [Grpc.Svc_Update (pb.UpdateTenantRequest_Id req)
                                 (pb.UpdateTenantRequest_Slug req)
                                 (pb.UpdateTenantRequest_Name req)
                                 (pb.UpdateTenantRequest_Status req)] |})).
Proof.
  repeat apply conj; intros req st' H;
    [unfold Grpc.CreateTenant | unfold Grpc.GetTenant | unfold Grpc.UpdateTenant];
    unfold bind, Grpc.invoke; rewrite H; reflexivity.
Qed.

(** [Create] of the one-tenant service hands back a nil tenant and no
    error. *)
Lemma handlers_panic_on_nil_tenant_witness :
  Grpc.CreateTenant "not found" oneTenantService
    {| pb.CreateTenantRequest_Slug := "acme"; pb.CreateTenantRequest_Name := "Acme" |}
    {| Grpc.svc_state := None; Grpc.svc_calls := [] |}
  = (Panicked,
     {| Grpc.svc_state := None; Grpc.svc_calls := [Grpc.Svc_Create "acme" "Acme"] |}).
Proof.
  apply (proj1 (handlers_panic_on_nil_tenant "not found" oneTenantService
                  {| Grpc.svc_state := None; Grpc.svc_calls := [] |})
           {| pb.CreateTenantRequest_Slug := "acme";
              pb.CreateTenantRequest_Name := "Acme" |} None).
  reflexivity.
Defined.

(** X10.  When the service's [List] answers with tenants none of which is
    nil, a non-nil result and a nil error, [ListTenants] returns a nil
    error and a response that has one tenant for each tenant of the
    service, in the same order, each converted by [tenantToProto], and
    the next-page token unchanged.  The total count of the response is
    [int32] of the service's count: it is the service's count exactly
    when that count fits 32 bits, and a wrapped value otherwise. *)
Theorem ListTenants_returns_service_page {S : Type} (ErrNotFound_text : string)
    (svc : service.TenantService S) (w : Grpc.world S)
    (req : pb.ListTenantsRequest) (ts : list repository.Tenant)
    (result : repository.ListResult) (st' : S) :
  let locals :=
    match pb.ListTenantsRequest_Pagination req with
    | Some pagination =>
        (if pb.PageSize pagination >? 0 then pb.PageSize pagination else 10,
         pb.PageToken pagination)
    | None => (10, "")
    end in
  service.svc_List svc (fst locals) (snd locals) (Grpc.svc_state w)
  = (Done (map Some ts, Some result, None), st') ->
  exists resp : pb.ListTenantsResponse,
    fst (Grpc.ListTenants ErrNotFound_text svc req w) = Done (Some resp, None) /\
    Forall2 (fun t p => Grpc.tenantToProto (Some t) = Done p)
      ts (pb.ListTenantsResponse_Tenants resp) /\
    pb.NextPageToken (pb.ListTenantsResponse_Pagination resp)
    = repository.NextPageToken result /\
    pb.TotalCount (pb.ListTenantsResponse_Pagination resp)
    = int32 (repository.TotalCount result) /\
    (pb.TotalCount (pb.ListTenantsResponse_Pagination resp)
     = repository.TotalCount result
     <-> - 2 ^ 31 <= repository.TotalCount result < 2 ^ 31).
Proof.
  intros locals H. subst locals.
  destruct (tenantsToProto_Some ts) as (ps & Hps & HF).
  eexists. split.
  - unfold Grpc.ListTenants. cbv zeta. unfold bind, Grpc.invoke.
    rewrite H. cbn [fst snd lift]. rewrite Hps. reflexivity.
  - cbn [pb.ListTenantsResponse_Tenants pb.ListTenantsResponse_Pagination
         pb.NextPageToken pb.TotalCount].
    split; [exact HF|]. split; [reflexivity|]. split; [reflexivity|]. split.
    + intros Heq. rewrite <- Heq. apply int32_in_range.
    + apply int32_small.
Qed.

(** The one tenant of the one-tenant service, listed with a total count
    of 2^32 + 1, which reaches the client as 1. *)
Lemma ListTenants_returns_service_page_witness :
  exists resp : pb.ListTenantsResponse,
    fst (Grpc.ListTenants "not found" oneTenantService
           {| pb.ListTenantsRequest_Pagination := None |}
           {| Grpc.svc_state := Some sampleTenant; Grpc.svc_calls := [] |})
    = Done (Some resp, None) /\
    length (pb.ListTenantsResponse_Tenants resp) = 1%nat /\
    pb.TotalCount (pb.ListTenantsResponse_Pagination resp) = 1.
Proof.
  destruct (ListTenants_returns_service_page "not found" oneTenantService
              {| Grpc.svc_state := Some sampleTenant; Grpc.svc_calls := [] |}
              {| pb.ListTenantsRequest_Pagination := None |}
              [sampleTenant]
              {| repository.NextPageToken := ""; repository.TotalCount := 4294967297 |}
              (Some sampleTenant) eq_refl)
    as (resp & Hrun & HF & _ & Hcount & _).
  exists resp. split; [exact Hrun|]. split.
  - apply Forall2_length in HF. symmetry. exact HF.
  - rewrite Hcount. reflexivity.
Defined.

(** X11.  When the service's [List] answers with a nil error,
    [ListTenants] panics exactly when one of the tenant pointers is nil
    or the result pointer is nil; otherwise it returns. *)
Theorem ListTenants_panics_iff_nil {S : Type} (ErrNotFound_text : string)
    (svc : service.TenantService S) (w : Grpc.world S)
    (req : pb.ListTenantsRequest)
    (tenants : list (option repository.Tenant))
    (result : option repository.ListResult) (st' : S) :
  let locals :=
    match pb.ListTenantsRequest_Pagination req with
    | Some pagination =>
        (if pb.PageSize pagination >? 0 then pb.PageSize pagination else 10,
         pb.PageToken pagination)
    | None => (10, "")
    end in
  service.svc_List svc (fst locals) (snd locals) (Grpc.svc_state w)
  = (Done (tenants, result, None), st') ->
  (fst (Grpc.ListTenants ErrNotFound_text svc req w) = Panicked
   <-> None ∈ tenants \/ result = None) /\
  (fst (Grpc.ListTenants ErrNotFound_text svc req w) <> Panicked ->
   exists resp, fst (Grpc.ListTenants ErrNotFound_text svc req w)
                = Done (Some resp, None)).
Proof.
  intros locals H. subst locals.
  unfold Grpc.ListTenants. cbv zeta. unfold bind, Grpc.invoke.
  rewrite H. cbn [fst snd lift].
  pose proof (tenantsToProto_panics tenants) as Hp.
  destruct (Grpc.tenantsToProto tenants) as [ps|].
  - destruct result as [result|]; cbn [fst lift ret]; split.
    + split; [discriminate|]. intros [Hin | Hr]; [|discriminate].
      apply Hp in Hin. discriminate.
    + intros _. eexists. reflexivity.
    + split; [intros _; right; reflexivity | reflexivity].
    + intros Hne. contradiction.
  - cbn [fst]. split.
    + split; [|reflexivity]. intros _. left. apply Hp. reflexivity.
    + intros Hne. contradiction.
Qed.

(** The one-tenant service with a [List] that answers with a tenant, a
    nil result pointer and a nil error: the handler panics. *)
Lemma ListTenants_panics_iff_nil_witness :
  let svc := {| service.svc_Create := service.svc_Create oneTenantService;
                service.svc_GetByID := service.svc_GetByID oneTenantService;
                service.svc_Update := service.svc_Update oneTenantService;
                service.svc_Delete := service.svc_Delete oneTenantService;
                service.svc_List := fun pageSize pageToken σ =>
                  (Done ([Some sampleTenant], None, None), σ) |} in
  fst (Grpc.ListTenants "not found" svc
         {| pb.ListTenantsRequest_Pagination := None |}
         {| Grpc.svc_state := None; Grpc.svc_calls := [] |}) = Panicked.
Proof.
  cbv zeta.
  match goal with
  | |- fst (Grpc.ListTenants _ ?svc _ _) = _ =>
      apply (proj1 (ListTenants_panics_iff_nil "not found" svc
                      {| Grpc.svc_state := None; Grpc.svc_calls := [] |}
                      {| pb.ListTenantsRequest_Pagination := None |}
                      [Some sampleTenant] None None eq_refl))
  end.
  right. reflexivity.
Defined.

(** ** The relationship service *)

(** X12.  [Create] with its four required arguments non-empty puts one
    new object on the heap, at a location that held none, and calls the
    repository's [Create] once with the pointer to it: the object has the
    five arguments in its fields ([data] as given, empty or not), an
    empty [ID] and zero timestamps, and every object already on the heap
    is left as it was.  The result is the repository's. *)
Theorem Create_allocates_fresh_object {S : Type}
    (repo : repository.RelationshipRepository S)
    (tenantID sourceNodeID targetNodeID relType data : string)
    (w : service.world S) :
  tenantID <> "" -> sourceNodeID <> "" -> targetNodeID <> "" -> relType <> "" ->
  let rel := {| repository.ID := ""; repository.TenantID := tenantID;
                repository.SourceNodeID := sourceNodeID;
                repository.TargetNodeID := targetNodeID;
                repository.RelationshipType := relType;
                repository.Data := data;
                repository.CreatedAt := time.zero;
                repository.UpdatedAt := time.zero |} in
  exists l : repository.loc,
    service.objs w !! l = None /\
    service.Create repo tenantID sourceNodeID targetNodeID relType data w
    = service.invoke (service.Call_Create (Some l))
        (repository.repo_Create repo (Some l))
        {| service.store := service.store w;
           service.objs := <[l := rel]> (service.objs w);
           service.calls := service.calls w |} /\
    (forall l' r, service.objs w !! l' = Some r ->
                  <[l := rel]> (service.objs w) !! l' = Some r).
Proof.
  intros Ht Hs Hg Hr rel.
  assert (Hfresh : service.objs w !! fresh (dom (service.objs w)) = None).
  { apply not_elem_of_dom. apply is_fresh. }
  exists (fresh (dom (service.objs w))). split; [exact Hfresh|]. split.
  - unfold service.Create.
    rewrite (eqb_empty_false _ Ht), (eqb_empty_false _ Hs),
      (eqb_empty_false _ Hg), (eqb_empty_false _ Hr).
    reflexivity.
  - intros l' r Hl'. rewrite lookup_insert_ne; [exact Hl'|].
    intros <-. congruence.
Qed.

(** Creating a second relationship beside the sample one. *)
Lemma Create_allocates_fresh_object_witness :
  exists l : repository.loc,
    service.objs sampleWorld !! l = None /\
    fst (service.Create stubRepo "acme" "n2" "n3" "blocks" "" sampleWorld)
    = Done (Some l, None).
Proof.
  destruct (Create_allocates_fresh_object stubRepo "acme" "n2" "n3" "blocks" ""
              sampleWorld ltac:(discriminate) ltac:(discriminate)
              ltac:(discriminate) ltac:(discriminate))
    as (l & Hl & Hrun & _).
  exists l. split; [exact Hl|]. rewrite Hrun. reflexivity.
Defined.

(** X13.  Which validation error an operation returns is decided by the
    order of its checks.  [Create] reports the first empty argument in
    the order tenant, source node, target node, relationship type.
    [GetByID], [Update] and [Delete] check [id] before [tenantID]: with
    both empty the error is "id is required". *)
Theorem validation_errors_in_check_order {S : Type}
    (repo : repository.RelationshipRepository S) (w : service.world S)
    (tenantID sourceNodeID targetNodeID relType data id : string) :
  (tenantID = "" ->
   fst (service.Create repo tenantID sourceNodeID targetNodeID relType data w)
   = Done (None, Some (errorString "tenant_id is required"))) /\
  (tenantID <> "" -> sourceNodeID = "" ->
   fst (service.Create repo tenantID sourceNodeID targetNodeID relType data w)
   = Done (None, Some (errorString "source_node_id is required"))) /\
  (tenantID <> "" -> sourceNodeID <> "" -> targetNodeID = "" ->
   fst (service.Create repo tenantID sourceNodeID targetNodeID relType data w)
   = Done (None, Some (errorString "target_node_id is required"))) /\
  (tenantID <> "" -> sourceNodeID <> "" -> targetNodeID <> "" -> relType = "" ->
   fst (service.Create repo tenantID sourceNodeID targetNodeID relType data w)
   = Done (None, Some (errorString "relationship_type is required"))) /\
  (id = "" ->
   fst (service.GetByID repo tenantID id w)
   = Done (None, Some (errorString "id is required")) /\
   fst (service.Update repo tenantID id relType data w)
   = Done (None, Some (errorString "id is required")) /\
   fst (service.Delete repo tenantID id w)
   = Done (Some (errorString "id is required"))) /\
  (id <> "" -> tenantID = "" ->
   fst (service.GetByID repo tenantID id w)
   = Done (None, Some (errorString "tenant_id is required")) /\
   fst (service.Update repo tenantID id relType data w)
   = Done (None, Some (errorString "tenant_id is required")) /\
   fst (service.Delete repo tenantID id w)
   = Done (Some (errorString "tenant_id is required"))).
Proof.
  unfold service.Create, service.GetByID, service.Update, service.Delete.
  repeat apply conj; intros;
    repeat match goal with
           | H : ?x = "" |- _ => subst x
           | H : ?x <> "" |- _ => rewrite (eqb_empty_false _ H); clear H
           end;
    repeat split; reflexivity.
Qed.

(** With both identifiers empty the three operations complain about
    [id]; [Create] with everything empty complains about the tenant. *)
Lemma validation_errors_in_check_order_witness :
  fst (service.Delete stubRepo "" "" sampleWorld)
  = Done (Some (errorString "id is required")) /\
  fst (service.Create stubRepo "" "" "" "" "" sampleWorld)
  = Done (None, Some (errorString "tenant_id is required")).
Proof.
  pose proof (validation_errors_in_check_order stubRepo sampleWorld
                "" "" "" "" "" "") as (HCreate & _ & _ & _ & Hid & _).
  split.
  - apply Hid. reflexivity.
  - apply HCreate. reflexivity.
Defined.

Section CallDiscipline.
Import repository service.
Context {S : Type}.
Variable repo : RelationshipRepository S.

(** Reads the calls an operation has added to the log off the final
    world. *)
Ltac read_log :=
  cbn [snd calls];
  first [ exists []; split; [symmetry; apply app_nil_r | tauto]
        | eexists; split; [rewrite <- ?app_assoc; reflexivity | cbn; eauto 6] ].

(** A call of a repository method adds itself to the log, and nothing
    else. *)
Lemma invoke_log {A : Type} (c : repoCall)
    (m : M (S * gmap loc Relationship) A) (w : world S) :
  calls (snd (invoke c m w)) = calls w ++ [c].
Proof.
  unfold invoke. destruct (m (store w, objs w)) as [a [st h]]. reflexivity.
Qed.

(** An assignment through a pointer leaves the log alone. *)
Lemma assign_log (rel : option loc) (upd : Relationship -> Relationship)
    (w : world S) :
  calls (snd (assign rel upd w)) = calls w.
Proof.
  unfold assign. destruct rel as [l|]; [|reflexivity].
  destruct (objs w !! l); reflexivity.
Qed.

Lemma optional_assign_log (b : bool) (rel : option loc)
    (upd : Relationship -> Relationship) (w : world S) :
  calls (snd ((if b then assign rel upd else ret tt) w)) = calls w.
Proof. destruct b; [apply assign_log | reflexivity]. Qed.

(** What [Update] can add to the log. *)
Lemma Update_log (tenantID id relType data : string) (w : world S) :
  exists suffix : list repoCall,
    calls (snd (Update repo tenantID id relType data w)) = calls w ++ suffix /\
    (suffix = [] \/
     suffix = [Call_GetByID tenantID id] \/
     exists rel, suffix = [Call_GetByID tenantID id; Call_Update rel]).
Proof.
  unfold Update.
  destruct (String.eqb id ""); [read_log|].
  destruct (String.eqb tenantID ""); [read_log|].
  unfold bind at 1.
  pose proof (invoke_log (Call_GetByID tenantID id)
                (repo_GetByID repo tenantID id) w) as Hget.
  destruct (invoke (Call_GetByID tenantID id) (repo_GetByID repo tenantID id) w)
    as [[[rel err]|] w1]; cbn [snd fst] in *; [|rewrite Hget; read_log].
  destruct err as [e|]; [cbn [ret snd]; rewrite Hget; read_log|].
  unfold bind at 1.
  pose proof (optional_assign_log (negb (String.eqb relType "")) rel
                (set_RelationshipType relType) w1) as H1.
  destruct ((if negb (String.eqb relType "")
             then assign rel (set_RelationshipType relType) else ret tt) w1)
    as [[[]|] w2]; cbn [snd] in H1; [|cbn [snd]; rewrite H1, Hget; read_log].
  unfold bind at 1.
  pose proof (optional_assign_log (negb (String.eqb data "")) rel
                (set_Data data) w2) as H2.
  destruct ((if negb (String.eqb data "")
             then assign rel (set_Data data) else ret tt) w2)
    as [[[]|] w3]; cbn [snd] in H2; [|cbn [snd]; rewrite H2, H1, Hget; read_log].
  rewrite invoke_log, H2, H1, Hget. read_log.
Qed.

End CallDiscipline.

(** X14.  What each operation of the service can ask of the repository,
    on every input and whatever the repository answers (a result, an
    error or a panic): [Create], [GetByID], [Delete] and [List] call
    nothing or their own repository method once, with the arguments they
    were given; [Update] calls nothing, or [GetByID] alone, or [GetByID]
    and then [Update].  So [Update] never writes without having read, and
    no operation calls [Delete] or [Create] on behalf of another. *)
Theorem service_calls_are_disciplined {S : Type}
    (repo : repository.RelationshipRepository S) (w : service.world S)
    (tenantID sourceNodeID targetNodeID relType data id pageToken : string)
    (pageSize : Z) :
  (exists suffix,
     service.calls
       (snd (service.Create repo tenantID sourceNodeID targetNodeID relType data w))
     = service.calls w ++ suffix /\
     (suffix = [] \/
      exists l, service.objs w !! l = None /\
                suffix = [service.Call_Create (Some l)])) /\
  (exists suffix,
     service.calls (snd (service.GetByID repo tenantID id w))
     = service.calls w ++ suffix /\
     (suffix = [] \/ suffix = [service.Call_GetByID tenantID id])) /\
  (exists suffix,
     service.calls (snd (service.Update repo tenantID id relType data w))
     = service.calls w ++ suffix /\
     (suffix = [] \/
      suffix = [service.Call_GetByID tenantID id] \/
      exists rel, suffix = [service.Call_GetByID tenantID id;
                            service.Call_Update rel])) /\
  (exists suffix,
     service.calls (snd (service.Delete repo tenantID id w))
     = service.calls w ++ suffix /\
     (suffix = [] \/ suffix = [service.Call_Delete tenantID id])) /\
  (exists suffix,
     service.calls
       (snd (service.List repo tenantID sourceNodeID targetNodeID relType
               pageSize pageToken w))
     = service.calls w ++ suffix /\
     (suffix = [] \/
      suffix = [service.Call_List tenantID sourceNodeID targetNodeID relType
                  {| repository.PageSize := pageSize;
                     repository.PageToken := pageToken |}])).
Proof.
  assert (Hnil : forall l : list service.repoCall, l = l ++ [])
    by (intros; symmetry; apply app_nil_r).
  repeat apply conj.
  - unfold service.Create.
    destruct (String.eqb tenantID ""); [exists []; auto|].
    destruct (String.eqb sourceNodeID ""); [exists []; auto|].
    destruct (String.eqb targetNodeID ""); [exists []; auto|].
    destruct (String.eqb relType ""); [exists []; auto|].
    unfold bind, service.new. rewrite invoke_log. cbn [service.calls].
    eexists. split; [reflexivity|]. right. eexists. split; [|reflexivity].
    apply not_elem_of_dom, is_fresh.
  - unfold service.GetByID.
    destruct (String.eqb id ""); [exists []; auto|].
    destruct (String.eqb tenantID ""); [exists []; auto|].
    rewrite invoke_log. eauto.
  - apply Update_log.
  - unfold service.Delete.
    destruct (String.eqb id ""); [exists []; auto|].
    destruct (String.eqb tenantID ""); [exists []; auto|].
    rewrite invoke_log. eauto.
  - unfold service.List.
    destruct (String.eqb tenantID ""); [exists []; auto|].
    cbv zeta. rewrite invoke_log. eauto.
Qed.

(** X15.  When the repository's [GetByID] answers with a nil pointer and
    a nil error, [Update] panics on its first assignment if [relType] or
    [data] is not empty, having called [GetByID] only; with both empty it
    dereferences nothing and calls the repository's [Update] with the nil
    pointer. *)
Theorem Update_on_nil_relationship {S : Type}
    (repo : repository.RelationshipRepository S)
    (tenantID id relType data : string) (w : service.world S)
    (st : S) (h : gmap repository.loc repository.Relationship) :
  id <> "" -> tenantID <> "" ->
  repository.repo_GetByID repo tenantID id (service.store w, service.objs w)
  = (Done (None, None), (st, h)) ->
  let w1 := {| service.store := st; service.objs := h;
               service.calls :=
                 service.calls w ++ [service.Call_GetByID tenantID id] |} in
  (relType <> "" \/ data <> "" ->
   service.Update repo tenantID id relType data w = (Panicked, w1)) /\
  (relType = "" -> data = "" ->
   service.Update repo tenantID id relType data w
   = service.invoke (service.Call_Update None)
       (repository.repo_Update repo None) w1).
Proof.
  intros Hid Hten Hget w1.
  rewrite (Update_after_GetByID repo _ _ _ _ _ _ _ _ Hid Hten Hget).
  cbn [fst snd]. fold w1. split.
  - intros Hne.
    destruct (String.eqb_spec relType "") as [-> | HrelType]; cbn [negb].
    + destruct Hne as [Hne | Hne]; [congruence|].
      rewrite (eqb_empty_false _ Hne). reflexivity.
    + reflexivity.
  - intros -> ->. reflexivity.
Qed.

(** Both cases against the repository that answers nil and nil. *)
Lemma Update_on_nil_relationship_witness :
  let w := {| service.store := tt; service.objs := ∅; service.calls := [] |} in
  fst (service.Update nilRepo "acme" "r1" "blocks" "" w) = Panicked /\
  service.Update nilRepo "acme" "r1" "" "" w
  = (Done (None, None),
     {| service.store := tt; service.objs := ∅;
        service.calls :=
          [service.Call_GetByID "acme" "r1"; service.Call_Update None] |}).
Proof.
  cbv zeta. split.
  - rewrite (proj1 (Update_on_nil_relationship nilRepo "acme" "r1" "blocks" ""
                      {| service.store := tt; service.objs := ∅;
                         service.calls := [] |} tt ∅
                      ltac:(discriminate) ltac:(discriminate) eq_refl)).
    + reflexivity.
    + left. discriminate.
  - rewrite (proj2 (Update_on_nil_relationship nilRepo "acme" "r1" "" ""
                      {| service.store := tt; service.objs := ∅;
                         service.calls := [] |} tt ∅
                      ltac:(discriminate) ltac:(discriminate) eq_refl));
      reflexivity.
Defined.

(** X16.  Past its checks the service adds nothing of its own to a read,
    a delete or a listing: [GetByID] and [Delete] with both identifiers
    non-empty, and [List] with a non-empty tenant, are one call of the
    repository method with the same arguments, and their result is the
    repository's.  [List] hands on the page size as it is, zero and
    negative sizes included, and empty filters as empty strings. *)
Theorem valid_requests_pass_through {S : Type}
    (repo : repository.RelationshipRepository S) (w : service.world S)
    (tenantID sourceNodeID targetNodeID relType id pageToken : string)
    (pageSize : Z) :
  tenantID <> "" ->
  (id <> "" ->
   service.GetByID repo tenantID id w
   = service.invoke (service.Call_GetByID tenantID id)
       (repository.repo_GetByID repo tenantID id) w /\
   service.Delete repo tenantID id w
   = service.invoke (service.Call_Delete tenantID id)
       (repository.repo_Delete repo tenantID id) w) /\
  service.List repo tenantID sourceNodeID targetNodeID relType pageSize pageToken w
  = service.invoke
      (service.Call_List tenantID sourceNodeID targetNodeID relType
         {| repository.PageSize := pageSize; repository.PageToken := pageToken |})
      (repository.repo_List repo tenantID sourceNodeID targetNodeID relType
         {| repository.PageSize := pageSize; repository.PageToken := pageToken |})
      w.
Proof.
  intros Hten. split.
  - intros Hid. unfold service.GetByID, service.Delete.
    rewrite (eqb_empty_false _ Hid), (eqb_empty_false _ Hten).
    split; reflexivity.
  - unfold service.List. rewrite (eqb_empty_false _ Hten). reflexivity.
Qed.

(** A listing with page size -5 and no filter reaches the repository as
    it is; fetching the sample relationship returns its location. *)
Lemma valid_requests_pass_through_witness :
  service.calls (snd (service.List stubRepo "acme" "" "" "" (-5) "" sampleWorld))
  = [service.Call_List "acme" "" "" ""
       {| repository.PageSize := -5; repository.PageToken := "" |}] /\
  fst (service.GetByID stubRepo "acme" "r1" sampleWorld)
  = Done (Some 1%positive, None).
Proof.
  destruct (valid_requests_pass_through stubRepo sampleWorld
              "acme" "" "" "" "r1" "" (-5) ltac:(discriminate))
    as (Hid & HList).
  destruct (Hid ltac:(discriminate)) as (HGet & _).
  rewrite HList, HGet. split; reflexivity.
Defined.

(** X17.  The service and the error mapping together: when the
    repository's [GetByID] fails with an error that has [ErrNotFound] on
    its chain, the error [Update] returns is mapped by [mapError] to the
    status [NotFound] carrying the repository's message unchanged, even
    if [relType] and [data] name changes to make. *)
Theorem Update_of_missing_maps_to_NotFound {S : Type}
    (ErrNotFound_text : string)
    (repo : repository.RelationshipRepository S)
    (tenantID id relType data : string) (w : service.world S)
    (rel : option repository.loc) (err : error)
    (st : S) (h : gmap repository.loc repository.Relationship) :
  id <> "" -> tenantID <> "" ->
  repository.repo_GetByID repo tenantID id (service.store w, service.objs w)
  = (Done (rel, Some err), (st, h)) ->
  Is_ErrNotFound (Some err) = true ->
  exists e : option error,
    fst (service.Update repo tenantID id relType data w) = Done (None, e) /\
    Grpc.mapError ErrNotFound_text e
    = Done {| status.Code := codes.NotFound;
              status.Message := Error ErrNotFound_text err |}.
Proof.
  intros Hid Hten Hget Hnf. exists (Some err). split.
  - rewrite (Update_after_GetByID repo _ _ _ _ _ _ _ _ Hid Hten Hget).
    reflexivity.
  - rewrite mapError_Some. cbn [Is_ErrNotFound] in Hnf. rewrite Hnf.
    reflexivity.
Qed.

(** Updating an identifier the test repository does not know. *)
Lemma Update_of_missing_maps_to_NotFound_witness :
  exists e : option error,
    fst (service.Update stubRepo "acme" "missing" "blocks" "{}" sampleWorld)
    = Done (None, e) /\
    Grpc.mapError "not found" e
    = Done {| status.Code := codes.NotFound;
              status.Message := "relationship not found" |}.
Proof.
  apply (Update_of_missing_maps_to_NotFound "not found" stubRepo
           "acme" "missing" "blocks" "{}" sampleWorld None
           (wrapError "relationship not found" ErrNotFound)
           (service.store sampleWorld) (service.objs sampleWorld));
    [discriminate | discriminate | reflexivity | reflexivity].
Defined.
